(** * Log filter CLI tool: a shallow embedding of [log_tool.py]

    The repository holds two near-identical scripts:

    - [src/log_tool.py]             (module [Root] below), and
    - [src/day 2 task/log_tool.py]  (module [Day2] below).

    Both read [logs.txt], keep the lines of shape
    [timestamp | level | service | message] whose level is INFO, WARN or
    ERROR, filter them by optional [--level] / [--service] and write the
    survivors to an output file, printing a summary.

    Python strings are sequences of Unicode code points; they are modelled
    as lists of code points ([N]).  The built-in string methods the scripts
    call ([str.strip], [str.split], [str.upper], [str.join]) are given
    executable definitions in module [PyStr]; [pathlib.Path] is modelled
    in module [PyPath] (POSIX flavour).

    A run of [main] is a function from the parsed command line ([args])
    and the relevant part of the file system ([world]) to the list of
    effects it performs and whether it returned or raised.  Outside the
    model: [argparse]'s own exits (usage errors, [--help]) and failures
    while decoding the input file. *)

From Stdlib Require Import List NArith Arith Bool Lia String Ascii.
From Stdlib Require Import DecimalString.
Import ListNotations.

(* ===================================================================== *)
(** ** Python strings                                                     *)
(* ===================================================================== *)

Module PyStr.

Local Open Scope N_scope.

(** A character is a Unicode code point. *)
Definition char := N.
Definition pystr := list char.

(** ASCII literals: [py "abc"] is the Python string ['abc']. *)
Definition py (s : string) : pystr :=
  List.map N_of_ascii (list_ascii_of_string s).

Definition NL : char := 10.     (* '\n' *)
Definition SPACE : char := 32.  (* ' '  *)
Definition BAR : char := 124.   (* '|'  *)
Definition SLASH : char := 47.  (* '/'  *)

Fixpoint str_eqb (a b : pystr) : bool :=
  match a, b with
  | [], [] => true
  | x :: a', y :: b' => (x =? y) && str_eqb a' b'
  | _, _ => false
  end.

(** [str.isspace] on one code point: the characters [str.strip()] removes
    (Unicode White_Space plus the information separators 0x1C-0x1F). *)
Definition isspace (c : char) : bool :=
  ((9 <=? c) && (c <=? 13)) || ((28 <=? c) && (c <=? 32)) ||
  (c =? 133) || (c =? 160) || (c =? 5760) ||
  ((8192 <=? c) && (c <=? 8202)) ||
  (c =? 8232) || (c =? 8233) || (c =? 8239) || (c =? 8287) || (c =? 12288).

Fixpoint lstrip (s : pystr) : pystr :=
  match s with
  | [] => []
  | c :: s' => if isspace c then lstrip s' else s
  end.

Definition rstrip (s : pystr) : pystr := rev (lstrip (rev s)).

(** [s.strip()] *)
Definition strip (s : pystr) : pystr := rstrip (lstrip s).

(** [s.split(sep)] for a one-character separator: no limit on the number
    of segments, empty segments are kept, the result is never empty. *)
Fixpoint split (sep : char) (s : pystr) : list pystr :=
  match s with
  | [] => [[]]
  | c :: s' =>
      if c =? sep then [] :: split sep s'
      else match split sep s' with
           | [] => [[c]]
           | seg :: segs => (c :: seg) :: segs
           end
  end.

(** [sep.join(l)] *)
Fixpoint join (sep : pystr) (l : list pystr) : pystr :=
  match l with
  | [] => []
  | [x] => x
  | x :: l' => x ++ sep ++ join sep l'
  end.

(** *** [str.upper]

    [str.upper] maps each code point through Unicode's full uppercase
    mapping, independently of its neighbours.  The mapping (Unicode 14.0,
    as in CPython 3.11) is stored in two tables: code points whose
    uppercase form is a single code point, as arithmetic runs
    [(lo, hi, stride, upper lo)], and code points whose uppercase form has
    several code points. *)

Definition upper_runs : list (N * N * N * N) :=
  [
   (97, 122, 1, 65); (181, 181, 1, 924); (224, 246, 1, 192);
   (248, 254, 1, 216); (255, 255, 1, 376); (257, 303, 2, 256);
   (305, 305, 1, 73); (307, 311, 2, 306); (314, 328, 2, 313);
   (331, 375, 2, 330); (378, 382, 2, 377); (383, 383, 1, 83);
   (384, 384, 1, 579); (387, 389, 2, 386); (392, 392, 1, 391);
   (396, 396, 1, 395); (402, 402, 1, 401); (405, 405, 1, 502);
   (409, 409, 1, 408); (410, 410, 1, 573); (414, 414, 1, 544);
   (417, 421, 2, 416); (424, 424, 1, 423); (429, 429, 1, 428);
   (432, 432, 1, 431); (436, 438, 2, 435); (441, 441, 1, 440);
   (445, 445, 1, 444); (447, 447, 1, 503); (453, 453, 1, 452);
   (454, 454, 1, 452); (456, 456, 1, 455); (457, 457, 1, 455);
   (459, 459, 1, 458); (460, 460, 1, 458); (462, 476, 2, 461);
   (477, 477, 1, 398); (479, 495, 2, 478); (498, 498, 1, 497);
   (499, 499, 1, 497); (501, 501, 1, 500); (505, 543, 2, 504);
   (547, 563, 2, 546); (572, 572, 1, 571); (575, 576, 1, 11390);
   (578, 578, 1, 577); (583, 591, 2, 582); (592, 592, 1, 11375);
   (593, 593, 1, 11373); (594, 594, 1, 11376); (595, 595, 1, 385);
   (596, 596, 1, 390); (598, 599, 1, 393); (601, 601, 1, 399);
   (603, 603, 1, 400); (604, 604, 1, 42923); (608, 608, 1, 403);
   (609, 609, 1, 42924); (611, 611, 1, 404); (613, 613, 1, 42893);
   (614, 614, 1, 42922); (616, 616, 1, 407); (617, 617, 1, 406);
   (618, 618, 1, 42926); (619, 619, 1, 11362); (620, 620, 1, 42925);
   (623, 623, 1, 412); (625, 625, 1, 11374); (626, 626, 1, 413);
   (629, 629, 1, 415); (637, 637, 1, 11364); (640, 640, 1, 422);
   (642, 642, 1, 42949); (643, 643, 1, 425); (647, 647, 1, 42929);
   (648, 648, 1, 430); (649, 649, 1, 580); (650, 651, 1, 433);
   (652, 652, 1, 581); (658, 658, 1, 439); (669, 669, 1, 42930);
   (670, 670, 1, 42928); (837, 837, 1, 921); (881, 883, 2, 880);
   (887, 887, 1, 886); (891, 893, 1, 1021); (940, 940, 1, 902);
   (941, 943, 1, 904); (945, 961, 1, 913); (962, 962, 1, 931);
   (963, 971, 1, 931); (972, 972, 1, 908); (973, 974, 1, 910);
   (976, 976, 1, 914); (977, 977, 1, 920); (981, 981, 1, 934);
   (982, 982, 1, 928); (983, 983, 1, 975); (985, 1007, 2, 984);
   (1008, 1008, 1, 922); (1009, 1009, 1, 929); (1010, 1010, 1, 1017);
   (1011, 1011, 1, 895); (1013, 1013, 1, 917); (1016, 1016, 1, 1015);
   (1019, 1019, 1, 1018); (1072, 1103, 1, 1040); (1104, 1119, 1, 1024);
   (1121, 1153, 2, 1120); (1163, 1215, 2, 1162); (1218, 1230, 2, 1217);
   (1231, 1231, 1, 1216); (1233, 1327, 2, 1232); (1377, 1414, 1, 1329);
   (4304, 4346, 1, 7312); (4349, 4351, 1, 7357); (5112, 5117, 1, 5104);
   (7296, 7296, 1, 1042); (7297, 7297, 1, 1044); (7298, 7298, 1, 1054);
   (7299, 7300, 1, 1057); (7301, 7301, 1, 1058); (7302, 7302, 1, 1066);
   (7303, 7303, 1, 1122); (7304, 7304, 1, 42570); (7545, 7545, 1, 42877);
   (7549, 7549, 1, 11363); (7566, 7566, 1, 42950); (7681, 7829, 2, 7680);
   (7835, 7835, 1, 7776); (7841, 7935, 2, 7840); (7936, 7943, 1, 7944);
   (7952, 7957, 1, 7960); (7968, 7975, 1, 7976); (7984, 7991, 1, 7992);
   (8000, 8005, 1, 8008); (8017, 8023, 2, 8025); (8032, 8039, 1, 8040);
   (8048, 8049, 1, 8122); (8050, 8053, 1, 8136); (8054, 8055, 1, 8154);
   (8056, 8057, 1, 8184); (8058, 8059, 1, 8170); (8060, 8061, 1, 8186);
   (8112, 8113, 1, 8120); (8126, 8126, 1, 921); (8144, 8145, 1, 8152);
   (8160, 8161, 1, 8168); (8165, 8165, 1, 8172); (8526, 8526, 1, 8498);
   (8560, 8575, 1, 8544); (8580, 8580, 1, 8579); (9424, 9449, 1, 9398);
   (11312, 11359, 1, 11264); (11361, 11361, 1, 11360);
   (11365, 11365, 1, 570); (11366, 11366, 1, 574); (11368, 11372, 2, 11367);
   (11379, 11379, 1, 11378); (11382, 11382, 1, 11381);
   (11393, 11491, 2, 11392); (11500, 11502, 2, 11499);
   (11507, 11507, 1, 11506); (11520, 11557, 1, 4256);
   (11559, 11559, 1, 4295); (11565, 11565, 1, 4301);
   (42561, 42605, 2, 42560); (42625, 42651, 2, 42624);
   (42787, 42799, 2, 42786); (42803, 42863, 2, 42802);
   (42874, 42876, 2, 42873); (42879, 42887, 2, 42878);
   (42892, 42892, 1, 42891); (42897, 42899, 2, 42896);
   (42900, 42900, 1, 42948); (42903, 42921, 2, 42902);
   (42933, 42947, 2, 42932); (42952, 42954, 2, 42951);
   (42961, 42961, 1, 42960); (42967, 42969, 2, 42966);
   (42998, 42998, 1, 42997); (43859, 43859, 1, 42931);
   (43888, 43967, 1, 5024); (65345, 65370, 1, 65313);
   (66600, 66639, 1, 66560); (66776, 66811, 1, 66736);
   (66967, 66977, 1, 66928); (66979, 66993, 1, 66940);
   (66995, 67001, 1, 66956); (67003, 67004, 1, 66964);
   (68800, 68850, 1, 68736); (71872, 71903, 1, 71840);
   (93792, 93823, 1, 93760); (125218, 125251, 1, 125184)
  ].

Definition upper_special : list (N * list N) :=
  [
   (223, [83; 83]); (329, [700; 78]); (496, [74; 780]);
   (912, [921; 776; 769]); (944, [933; 776; 769]); (1415, [1333; 1362]);
   (7830, [72; 817]); (7831, [84; 776]); (7832, [87; 778]);
   (7833, [89; 778]); (7834, [65; 702]); (8016, [933; 787]);
   (8018, [933; 787; 768]); (8020, [933; 787; 769]); (8022, [933; 787; 834]);
   (8064, [7944; 921]); (8065, [7945; 921]); (8066, [7946; 921]);
   (8067, [7947; 921]); (8068, [7948; 921]); (8069, [7949; 921]);
   (8070, [7950; 921]); (8071, [7951; 921]); (8072, [7944; 921]);
   (8073, [7945; 921]); (8074, [7946; 921]); (8075, [7947; 921]);
   (8076, [7948; 921]); (8077, [7949; 921]); (8078, [7950; 921]);
   (8079, [7951; 921]); (8080, [7976; 921]); (8081, [7977; 921]);
   (8082, [7978; 921]); (8083, [7979; 921]); (8084, [7980; 921]);
   (8085, [7981; 921]); (8086, [7982; 921]); (8087, [7983; 921]);
   (8088, [7976; 921]); (8089, [7977; 921]); (8090, [7978; 921]);
   (8091, [7979; 921]); (8092, [7980; 921]); (8093, [7981; 921]);
   (8094, [7982; 921]); (8095, [7983; 921]); (8096, [8040; 921]);
   (8097, [8041; 921]); (8098, [8042; 921]); (8099, [8043; 921]);
   (8100, [8044; 921]); (8101, [8045; 921]); (8102, [8046; 921]);
   (8103, [8047; 921]); (8104, [8040; 921]); (8105, [8041; 921]);
   (8106, [8042; 921]); (8107, [8043; 921]); (8108, [8044; 921]);
   (8109, [8045; 921]); (8110, [8046; 921]); (8111, [8047; 921]);
   (8114, [8122; 921]); (8115, [913; 921]); (8116, [902; 921]);
   (8118, [913; 834]); (8119, [913; 834; 921]); (8124, [913; 921]);
   (8130, [8138; 921]); (8131, [919; 921]); (8132, [905; 921]);
   (8134, [919; 834]); (8135, [919; 834; 921]); (8140, [919; 921]);
   (8146, [921; 776; 768]); (8147, [921; 776; 769]); (8150, [921; 834]);
   (8151, [921; 776; 834]); (8162, [933; 776; 768]); (8163, [933; 776; 769]);
   (8164, [929; 787]); (8166, [933; 834]); (8167, [933; 776; 834]);
   (8178, [8186; 921]); (8179, [937; 921]); (8180, [911; 921]);
   (8182, [937; 834]); (8183, [937; 834; 921]); (8188, [937; 921]);
   (64256, [70; 70]); (64257, [70; 73]); (64258, [70; 76]);
   (64259, [70; 70; 73]); (64260, [70; 70; 76]); (64261, [83; 84]);
   (64262, [83; 84]); (64275, [1348; 1350]); (64276, [1348; 1333]);
   (64277, [1348; 1339]); (64278, [1358; 1350]); (64279, [1348; 1341])
  ].

Fixpoint assoc_special (c : char) (t : list (N * list N)) : option (list N) :=
  match t with
  | [] => None
  | (k, v) :: t' => if c =? k then Some v else assoc_special c t'
  end.

Fixpoint assoc_run (c : char) (t : list (N * N * N * N)) : option N :=
  match t with
  | [] => None
  | (lo, hi, stride, target) :: t' =>
      if (lo <=? c) && (c <=? hi) && ((c - lo) mod stride =? 0)
      then Some (target + (c - lo))
      else assoc_run c t'
  end.

Definition upper_char (c : char) : list char :=
  match assoc_special c upper_special with
  | Some v => v
  | None =>
      match assoc_run c upper_runs with
      | Some u => [u]
      | None => [c]
      end
  end.

(** [s.upper()] *)
Definition upper (s : pystr) : pystr := flat_map upper_char s.

(** [str(n)] for a non-negative integer: its decimal digits. *)
Definition str_of_nat (n : nat) : pystr :=
  py (NilEmpty.string_of_uint (Nat.to_uint n)).

End PyStr.

Import PyStr.

(* ===================================================================== *)
(** ** [pathlib.Path] (POSIX flavour)                                     *)
(* ===================================================================== *)

Module PyPath.

(** A path is its root (empty, [/] or [//]) and its components; empty
    components and [.] are dropped when the path is built. *)
Record Path := { root : pystr; parts : list pystr }.

Definition count_leading_slashes (s : pystr) : nat :=
  (fix go (s : pystr) : nat :=
     match s with
     | c :: s' => if N.eqb c SLASH then S (go s') else 0
     | [] => 0
     end) s.

Definition keep_part (x : pystr) : bool :=
  negb (str_eqb x []) && negb (str_eqb x (py ".")).

(** [Path(s)] *)
Definition mkPath (s : pystr) : Path :=
  {| root := match count_leading_slashes s with
             | 0 => []
             | 2 => [SLASH; SLASH]
             | _ => [SLASH]
             end;
     parts := filter keep_part (split SLASH s) |}.

(** [str(p)] *)
Definition path_str (p : Path) : pystr :=
  match root p, parts p with
  | [], [] => py "."
  | r, ps => r ++ join [SLASH] ps
  end.

(** [p.name] *)
Definition path_name (p : Path) : pystr := last (parts p) [].

(** [p.parent] *)
Definition path_parent (p : Path) : Path :=
  {| root := root p; parts := removelast (parts p) |}.

End PyPath.

Import PyPath.

(* ===================================================================== *)
(** ** What a run sees and does                                           *)
(* ===================================================================== *)

(** The namespace [parser.parse_args()] returns: [--level] and [--service]
    are [None] when not given, [--out] defaults to [DEFAULT_OUT]. *)
Record args := {
  arg_level : option pystr;
  arg_service : option pystr;
  arg_out : pystr
}.

(** The part of the file system a run depends on: [logs] is [None] when
    [logs.txt] does not exist, otherwise the decoded lines the file object
    yields, in order (each with its line break, but for possibly the
    last); [mkdir_ok] and [write_ok] tell whether creating a directory and
    writing a file at a path succeed (otherwise the call raises). *)
Record world := {
  logs : option (list pystr);
  mkdir_ok : Path -> bool;
  write_ok : Path -> bool
}.

(** The observable actions of a run, in order. *)
Inductive effect :=
| Print (line : pystr)                      (* print(line) *)
| Mkdir (dir : Path)                        (* dir.mkdir(parents=True, exist_ok=True) *)
| WriteText (path : Path) (content : pystr) (* path.write_text(content) *).

Inductive status := Returned | Raised.

Record outcome := { effects : list effect; exit : status }.

Definition nonempty_list {A : Type} (l : list A) : bool :=
  match l with [] => false | _ :: _ => true end.

(** The loop variables of [main]. *)
Record scan_state := {
  total_valid_scanned : nat;
  lines_written : nat;
  output_lines : list pystr
}.

Definition record := (pystr * pystr * pystr * pystr)%type.

Definition LOG_FILE : Path := mkPath (py "logs.txt").
Definition DEFAULT_OUT : pystr := py "filtered_logs.txt".
Definition ALLOWED_LEVELS : list pystr := [py "INFO"; py "WARN"; py "ERROR"].

(** [x in l] *)
Definition mem (x : pystr) (l : list pystr) : bool := existsb (str_eqb x) l.

(** Truthiness of a string. *)
Definition nonempty (s : pystr) : bool :=
  match s with [] => false | _ :: _ => true end.

(** [f is not None and x != f] *)
Definition differs_from (x : pystr) (f : option pystr) : bool :=
  match f with
  | None => false
  | Some v => negb (str_eqb x v)
  end.

(** [f"{x}"] for an optional string. *)
Definition format_option (x : option pystr) : pystr :=
  match x with
  | Some s => s
  | None => py "None"
  end.

(** [f"{timestamp} | {level_up} | {service} | {message}"] *)
Definition format_record (timestamp level_up service message : pystr) : pystr :=
  timestamp ++ py " | " ++ level_up ++ py " | " ++ service ++ py " | " ++ message.

(** ["\n".join(output_lines) + ("\n" if output_lines else "")] *)
Definition file_content (output_lines : list pystr) : pystr :=
  join [NL] output_lines ++ (if nonempty_list output_lines then [NL] else []).

(* ===================================================================== *)
(** ** [src/log_tool.py]                                            *)
(* ===================================================================== *)

Module Root.

Definition parse_line (line : pystr) : option record :=
  if negb (nonempty line) then None else
  let raw := strip line in
  if negb (nonempty raw) then None else
  let parts := List.map strip (split BAR raw) in
  if negb (List.length parts =? 4) then None else
  match parts with
  | [timestamp; level; service; message] =>
      Some (timestamp, level, service, message)
  | _ => None
  end.

Definition is_valid_level (level : pystr) : bool :=
  mem (upper (strip level)) ALLOWED_LEVELS.

Definition matches_filters (level service : pystr)
    (level_filter service_filter : option pystr) : bool :=
  if differs_from (upper level) level_filter then false
  else if differs_from service service_filter then false
  else true.

(** One iteration of the [for] loop of [main]. *)
Definition scan_line (level_filter service_filter : option pystr)
    (st : scan_state) (line : pystr) : scan_state :=
  match parse_line line with
  | None => st
  | Some (timestamp, level, service, message) =>
      let level_up := upper level in
      if negb (mem level_up ALLOWED_LEVELS) then st
      else
        let total := S (total_valid_scanned st) in
        if matches_filters level_up service level_filter service_filter then
          {| total_valid_scanned := total;
             lines_written := S (lines_written st);
             output_lines :=
               output_lines st
               ++ [format_record timestamp level_up service message] |}
        else
          {| total_valid_scanned := total;
             lines_written := lines_written st;
             output_lines := output_lines st |}
  end.

(** The whole loop, from the initial counters. *)
Definition scan (level_filter service_filter : option pystr)
    (lines : list pystr) : scan_state :=
  fold_left (scan_line level_filter service_filter) lines
    {| total_valid_scanned := 0; lines_written := 0; output_lines := [] |}.

Definition main (a : args) (w : world) : outcome :=
  let level_filter :=
    match arg_level a with
    | Some l => if nonempty l then Some (upper l) else None
    | None => None
    end in
  let service_filter :=
    match arg_service a with
    | Some s => if nonempty s then Some s else None
    | None => None
    end in
  let out_path := mkPath (arg_out a) in
  match logs w with
  | None =>
      {| effects := [Print (py "Valid lines scanned: 0");
                     Print (py "Lines written: 0");
                     Print (py "Output file: " ++ path_str out_path)];
         exit := Returned |}
  | Some fin =>
      let st := scan level_filter service_filter fin in
      if negb (mkdir_ok w (path_parent out_path)) then
        {| effects := []; exit := Raised |}
      else if negb (write_ok w out_path) then
        {| effects := [Mkdir (path_parent out_path)]; exit := Raised |}
      else
        {| effects :=
             [Mkdir (path_parent out_path);
              WriteText out_path (file_content (output_lines st));
              Print (py "Valid lines scanned: " ++ str_of_nat (total_valid_scanned st));
              Print (py "Lines written: " ++ str_of_nat (lines_written st));
              Print (py "Output file: " ++ path_str out_path)];
           exit := Returned |}
  end.

End Root.

(* ===================================================================== *)
(** ** [src/day 2 task/log_tool.py]                                 *)
(* ===================================================================== *)

Module Day2.

Definition parse_line (line : pystr) : option record :=
  let s := strip line in
  if negb (nonempty s) then None else
  let parts := List.map strip (split BAR s) in
  if negb (List.length parts =? 4) then None else
  match parts with
  | [ts; level; service; message] => Some (ts, level, service, message)
  | _ => None
  end.

Definition is_valid_level (level : pystr) : bool :=
  mem (upper level) ALLOWED_LEVELS.

Definition matches_filters (level service : pystr)
    (level_filter service_filter : option pystr) : bool :=
  if differs_from (upper level) level_filter then false
  else if differs_from service service_filter then false
  else true.

(** One iteration of the [for] loop of [main]. *)
Definition scan_line (level_filter service_filter : option pystr)
    (st : scan_state) (line : pystr) : scan_state :=
  match parse_line line with
  | None => st
  | Some (timestamp, level, service, message) =>
      let level_up := upper level in
      if negb (mem level_up ALLOWED_LEVELS) then st
      else
        let total := S (total_valid_scanned st) in
        if matches_filters level_up service level_filter service_filter then
          {| total_valid_scanned := total;
             lines_written := S (lines_written st);
             output_lines :=
               output_lines st
               ++ [format_record timestamp level_up service message] |}
        else
          {| total_valid_scanned := total;
             lines_written := lines_written st;
             output_lines := output_lines st |}
  end.

(** The whole loop, from the initial counters. *)
Definition scan (level_filter service_filter : option pystr)
    (lines : list pystr) : scan_state :=
  fold_left (scan_line level_filter service_filter) lines
    {| total_valid_scanned := 0; lines_written := 0; output_lines := [] |}.

(** The part of [main] after the [--level] guard. *)
Definition main_scan (level_filter service_filter : option pystr)
    (out_path : Path) (w : world) : outcome :=
  match logs w with
  | None =>
      {| effects :=
           [Print (py "ERROR: Cannot find " ++ path_str LOG_FILE
                   ++ py ". Put logs.txt in the same folder as this file.")];
         exit := Returned |}
  | Some f =>
      let st := scan level_filter service_filter f in
      if negb (write_ok w out_path) then
        {| effects := []; exit := Raised |}
      else
        {| effects :=
             [WriteText out_path (file_content (output_lines st));
              Print (py "Valid lines scanned: " ++ str_of_nat (total_valid_scanned st));
              Print (py "Lines written: " ++ str_of_nat (lines_written st));
              Print (py "Output file: " ++ path_name out_path)];
           exit := Returned |}
  end.

Definition main (a : args) (w : world) : outcome :=
  let level_filter :=
    match arg_level a with
    | Some l => if nonempty l then Some (upper l) else None
    | None => None
    end in
  let service_filter :=
    match arg_service a with
    | Some s => if nonempty s then Some s else None
    | None => None
    end in
  let out_path := mkPath (arg_out a) in
  match level_filter with
  | Some lf =>
      if negb (mem lf ALLOWED_LEVELS) then
        {| effects :=
             [Print (py "ERROR: --level must be one of INFO, WARN, ERROR (got: "
                     ++ format_option (arg_level a) ++ py ")")];
           exit := Returned |}
      else main_scan level_filter service_filter out_path w
  | None => main_scan level_filter service_filter out_path w
  end.

End Day2.

(* ===================================================================== *)
(** ** Vocabulary of the specification                                    *)
(* ===================================================================== *)

(** Only whitespace. *)
Definition all_space (w : pystr) : bool := forallb isspace w.

(** The first (last) character is whitespace. *)
Definition starts_space (s : pystr) : bool :=
  match s with
  | [] => false
  | c :: _ => isspace c
  end.

Definition ends_space (s : pystr) : bool := starts_space (rev s).

(** The trimmed segments of a line: what [parse_line] unpacks. *)
Definition fields (line : pystr) : list pystr :=
  List.map strip (split BAR line).

(** Every trimmed segment is free of ['|'] and of whitespace at its ends. *)
Definition clean (f : pystr) : Prop :=
  ~ In BAR f /\ starts_space f = false /\ ends_space f = false.

(** Destructuring a list of exactly four segments. *)
Definition four (parts : list pystr) : option record :=
  match parts with
  | [t; l; s; m] => Some (t, l, s, m)
  | _ => None
  end.

(** A line is valid when it has exactly four trimmed pipe-separated fields
    and the uppercased level field is a recognised level. *)
Definition valid_line (line : pystr) : Prop :=
  exists t l s m,
    List.map strip (split BAR (strip line)) = [t; l; s; m]
    /\ In (upper l) ALLOWED_LEVELS.

(** The record of a valid line, with its level in upper case. *)
Definition valid_record (line : pystr) : option record :=
  match four (List.map strip (split BAR (strip line))) with
  | Some (t, l, s, m) =>
      if mem (upper l) ALLOWED_LEVELS then Some (t, upper l, s, m) else None
  | None => None
  end.

(** [valid_line], decided. *)
Definition is_valid_line (line : pystr) : bool :=
  match valid_record line with Some _ => true | None => false end.

(** The lines the scan emits for one input line: one or none. *)
Definition kept_line (lf sf : option pystr) (line : pystr) : list pystr :=
  match valid_record line with
  | Some (t, lv, s, m) =>
      if Root.matches_filters lv s lf sf then [format_record t lv s m] else []
  | None => []
  end.

(** A filter [g] narrows [f] when it is [f] itself or adds a filter where
    [f] has none. *)
Definition narrows (f g : option pystr) : Prop := f = None \/ f = g.

(** Each line followed by its line break. *)
Definition terminated_lines (ls : list pystr) : pystr :=
  flat_map (fun l => l ++ [NL]) ls.

(** [--level], normalised as [main] does: upper-cased, and absent when
    not given or empty. *)
Definition level_filter_of (a : args) : option pystr :=
  match arg_level a with
  | Some l => if nonempty l then Some (upper l) else None
  | None => None
  end.

(** [--service], absent when not given or empty. *)
Definition service_filter_of (a : args) : option pystr :=
  match arg_service a with
  | Some s => if nonempty s then Some s else None
  | None => None
  end.

(** The records a run keeps, formatted, in input order. *)
Definition kept_lines (a : args) (lines : list pystr) : list pystr :=
  flat_map (kept_line (level_filter_of a) (service_filter_of a)) lines.

(** The [--level] guard of [src/day 2 task/log_tool.py] lets the run
    proceed. *)
Definition level_accepted (a : args) : bool :=
  match level_filter_of a with
  | Some lf => mem lf ALLOWED_LEVELS
  | None => true
  end.

(** What a run printed, line by line. *)
Definition printed (o : outcome) : list pystr :=
  flat_map (fun e => match e with Print l => [l] | _ => [] end) (effects o).

(** The three summary lines. *)
Definition summary (scanned written : nat) (out : pystr) : list pystr :=
  [py "Valid lines scanned: " ++ str_of_nat scanned;
   py "Lines written: " ++ str_of_nat written;
   py "Output file: " ++ out].

(** How many times a character occurs in a string. *)
Definition count_char (c : char) (s : pystr) : nat := count_occ N.eq_dec s c.

(** A line as iterating over a text file yields it: no line break inside,
    at most one at the end. *)
Definition file_line (line : pystr) : Prop :=
  exists body, ~ In NL body /\ (line = body \/ line = body ++ [NL]).

(** A record as the scan emits it: fields free of ['|'] and of whitespace
    at their ends, and a recognised upper-case level. *)
Definition emitted_record (t lv s m : pystr) : Prop :=
  clean t /\ In lv ALLOWED_LEVELS /\ clean s /\ clean m.

(** Concrete runs used below. *)
Definition default_args : args :=
  {| arg_level := None; arg_service := None; arg_out := DEFAULT_OUT |}.

(** A file system where writing always succeeds. *)
Definition writable_world (input : option (list pystr)) : world :=
  {| logs := input; mkdir_ok := fun _ => true; write_ok := fun _ => true |}.

(** Scenario A of the specification: one valid line, in lower case. *)
Definition scenario_A : list pystr :=
  [py "2024-01-01T00:00:00 | info | auth | login ok" ++ [NL]].


(* ===================================================================== *)
(** ** Facts about the string operations                                  *)
(* ===================================================================== *)

Section StringFacts.

Lemma str_eqb_eq (a b : pystr) : str_eqb a b = true <-> a = b.
Proof.
  revert b; induction a as [|x a IH]; intros [|y b]; simpl;
    try (split; [discriminate | discriminate]); try tauto.
  rewrite andb_true_iff, N.eqb_eq, IH.
  split; [intros [-> ->]; reflexivity | intros H; injection H; auto].
Qed.

Lemma str_eqb_refl (a : pystr) : str_eqb a a = true.
Proof. apply str_eqb_eq; reflexivity. Qed.

Lemma mem_In (x : pystr) (l : list pystr) : mem x l = true <-> In x l.
Proof.
  unfold mem. rewrite existsb_exists. split.
  - intros (y & Hy & E). apply str_eqb_eq in E. subst. exact Hy.
  - intros H. exists x. split; [exact H | apply str_eqb_refl].
Qed.

(** *** Whitespace at the ends *)

Lemma lstrip_all_space (w s : pystr) :
  all_space w = true -> lstrip (w ++ s) = lstrip s.
Proof.
  induction w as [|c w IH]; simpl; [reflexivity|].
  intros H. apply andb_true_iff in H as [Hc Hw]. rewrite Hc. auto.
Qed.

Lemma lstrip_fixed (s : pystr) : starts_space s = false -> lstrip s = s.
Proof. destruct s as [|c s]; simpl; [reflexivity | intros ->; reflexivity]. Qed.

Lemma lstrip_starts (s : pystr) : starts_space (lstrip s) = false.
Proof.
  induction s as [|c s IH]; simpl; [reflexivity|].
  destruct (isspace c) eqn:E; [exact IH | simpl; exact E].
Qed.

Lemma lstrip_decompose (s : pystr) :
  exists w, all_space w = true /\ s = w ++ lstrip s.
Proof.
  induction s as [|c s (w & Hw & E)]; simpl.
  - exists []. split; reflexivity.
  - destruct (isspace c) eqn:Ec.
    + exists (c :: w). simpl. rewrite Ec, Hw. split; [reflexivity | congruence].
    + exists []. split; reflexivity.
Qed.

Lemma all_space_rev (w : pystr) : all_space (rev w) = all_space w.
Proof.
  unfold all_space. induction w as [|c w IH]; simpl; [reflexivity|].
  rewrite forallb_app, IH. simpl. rewrite andb_true_r. apply andb_comm.
Qed.

Lemma rstrip_decompose (s : pystr) :
  exists w, all_space w = true /\ s = rstrip s ++ w.
Proof.
  unfold rstrip. destruct (lstrip_decompose (rev s)) as (w & Hw & E).
  exists (rev w). split; [rewrite all_space_rev; exact Hw|].
  rewrite <- rev_app_distr, <- E, rev_involutive. reflexivity.
Qed.

Lemma rstrip_all_space (s w : pystr) :
  all_space w = true -> rstrip (s ++ w) = rstrip s.
Proof.
  intros H. unfold rstrip. rewrite rev_app_distr, lstrip_all_space; [reflexivity|].
  rewrite all_space_rev. exact H.
Qed.

Lemma rstrip_fixed (s : pystr) : ends_space s = false -> rstrip s = s.
Proof.
  unfold ends_space, rstrip. intros H. rewrite lstrip_fixed by exact H.
  apply rev_involutive.
Qed.

Lemma rstrip_ends (s : pystr) : ends_space (rstrip s) = false.
Proof. unfold ends_space, rstrip. rewrite rev_involutive. apply lstrip_starts. Qed.

Lemma rstrip_keeps_start (s : pystr) :
  starts_space s = false -> starts_space (rstrip s) = false.
Proof.
  intros H. destruct (rstrip_decompose s) as (w & _ & E).
  destruct (rstrip s) as [|c r]; [reflexivity|].
  rewrite E in H. exact H.
Qed.

Lemma strip_starts (s : pystr) : starts_space (strip s) = false.
Proof. apply rstrip_keeps_start, lstrip_starts. Qed.

Lemma strip_ends (s : pystr) : ends_space (strip s) = false.
Proof. apply rstrip_ends. Qed.

Lemma strip_fixed (s : pystr) :
  starts_space s = false -> ends_space s = false -> strip s = s.
Proof.
  intros H1 H2. unfold strip. rewrite lstrip_fixed by exact H1.
  apply rstrip_fixed, H2.
Qed.

Lemma strip_idem (s : pystr) : strip (strip s) = strip s.
Proof. apply strip_fixed; [apply strip_starts | apply strip_ends]. Qed.

Lemma lstrip_app_space (s w : pystr) :
  all_space w = true ->
  lstrip (s ++ w) = if all_space s then [] else lstrip s ++ w.
Proof.
  intros Hw. induction s as [|c s IH]; simpl.
  - rewrite <- (app_nil_r w), lstrip_all_space by exact Hw. reflexivity.
  - destruct (isspace c); simpl; [exact IH | reflexivity].
Qed.

Lemma lstrip_nil_all_space (s : pystr) : all_space s = true -> lstrip s = [].
Proof.
  intros H. rewrite <- (app_nil_r s). rewrite lstrip_all_space by exact H.
  reflexivity.
Qed.

(** Whitespace around a string does not change what [strip] returns. *)
Lemma strip_pad (w1 s w2 : pystr) :
  all_space w1 = true -> all_space w2 = true ->
  strip (w1 ++ s ++ w2) = strip s.
Proof.
  intros H1 H2. unfold strip.
  rewrite lstrip_all_space by exact H1.
  rewrite lstrip_app_space by exact H2.
  destruct (all_space s) eqn:E.
  - rewrite lstrip_nil_all_space by exact E. reflexivity.
  - apply rstrip_all_space, H2.
Qed.

Lemma strip_cons_space (c : char) (s : pystr) :
  isspace c = true -> strip (c :: s) = strip s.
Proof.
  intros H. change (c :: s) with ([c] ++ s).
  rewrite <- (app_nil_r s) at 1. rewrite strip_pad; auto.
  simpl. rewrite H. reflexivity.
Qed.

Lemma strip_app_space (s w : pystr) :
  all_space w = true -> strip (s ++ w) = strip s.
Proof. intros H. apply (strip_pad [] s w); auto. Qed.

Lemma In_lstrip (c : char) (s : pystr) : In c (lstrip s) -> In c s.
Proof.
  induction s as [|d s IH]; simpl; [tauto|].
  destruct (isspace d); simpl; tauto.
Qed.

Lemma In_strip (c : char) (s : pystr) : In c (strip s) -> In c s.
Proof.
  unfold strip, rstrip. intros H. apply In_lstrip.
  apply in_rev in H. apply In_lstrip in H. apply in_rev in H. exact H.
Qed.

End StringFacts.

Section SplitFacts.

Variable sep : char.

Lemma split_not_nil (s : pystr) : split sep s <> [].
Proof.
  destruct s as [|c s]; simpl; [discriminate|].
  destruct (N.eqb c sep); [discriminate|].
  destruct (split sep s); discriminate.
Qed.

Lemma split_cons_other (c : char) (s : pystr) :
  c <> sep ->
  exists seg segs, split sep s = seg :: segs /\
                   split sep (c :: s) = (c :: seg) :: segs.
Proof.
  intros H. simpl. apply N.eqb_neq in H. rewrite H.
  destruct (split sep s) as [|seg segs] eqn:E.
  - exfalso. exact (split_not_nil _ E).
  - exists seg, segs. split; reflexivity.
Qed.

(** No segment contains the separator. *)
Lemma split_no_sep (s seg : pystr) : In seg (split sep s) -> ~ In sep seg.
Proof.
  revert seg. induction s as [|c s IH]; simpl; intros seg H.
  - destruct H as [<-|[]]. simpl. tauto.
  - destruct (N.eqb_spec c sep) as [->|Hc].
    + destruct H as [<-|H]; [simpl; tauto | apply IH, H].
    + destruct (split sep s) as [|seg0 segs] eqn:E.
      * elim (split_not_nil _ E).
      * destruct H as [<-|H].
        -- simpl. intros [E'|E']; [exact (Hc E') | exact (IH seg0 (or_introl eq_refl) E')].
        -- apply IH. right. exact H.
Qed.

(** Splitting a string without separator gives the string itself. *)
Lemma split_none (a : pystr) : ~ In sep a -> split sep a = [a].
Proof.
  induction a as [|c a IH]; simpl; intros H; [reflexivity|].
  destruct (N.eqb_spec c sep) as [->|Hc]; [tauto|].
  rewrite IH by tauto. reflexivity.
Qed.

(** The first separator ends the first segment. *)
Lemma split_app (a b : pystr) :
  ~ In sep a -> split sep (a ++ sep :: b) = a :: split sep b.
Proof.
  induction a as [|c a IH]; simpl; intros H.
  - rewrite N.eqb_refl. reflexivity.
  - destruct (N.eqb_spec c sep) as [->|Hc]; [tauto|].
    rewrite IH by tauto. reflexivity.
Qed.

(** Characters appended without a separator extend the last segment. *)
Lemma split_app_tail (a w : pystr) :
  ~ In sep w ->
  split sep (a ++ w)
  = removelast (split sep a) ++ [last (split sep a) [] ++ w].
Proof.
  intros Hw. induction a as [|c a IH].
  - simpl. apply split_none, Hw.
  - change ((c :: a) ++ w) with (c :: (a ++ w)).
    destruct (N.eqb_spec c sep) as [->|Hc].
    + simpl. rewrite N.eqb_refl, IH.
      destruct (split sep a) as [|x xs] eqn:E; [elim (split_not_nil _ E)|].
      reflexivity.
    + destruct (split_cons_other c a Hc) as (seg & segs & E1 & E2).
      destruct (split_cons_other c (a ++ w) Hc) as (seg' & segs' & E1' & E2').
      rewrite E2, E2'. rewrite IH, E1 in E1'.
      destruct segs as [|y ys]; simpl in *.
      * injection E1' as <- <-. reflexivity.
      * injection E1' as <- <-. reflexivity.
Qed.

(** [sep.join (s.split sep)] gives [s] back. *)
Lemma join_split (s : pystr) : join [sep] (split sep s) = s.
Proof.
  induction s as [|c s IH]; simpl; [reflexivity|].
  destruct (N.eqb_spec c sep) as [->|Hc].
  - destruct (split sep s) as [|x xs] eqn:E; [elim (split_not_nil _ E)|].
    simpl. simpl in IH. rewrite IH. reflexivity.
  - destruct (split sep s) as [|x xs] eqn:E; [elim (split_not_nil _ E)|].
    destruct xs; simpl in *; rewrite IH; reflexivity.
Qed.

End SplitFacts.

(* ===================================================================== *)
(** ** The record a line is parsed to                                     *)
(* ===================================================================== *)

Section Fields.

Lemma isspace_not_BAR (c : char) : isspace c = true -> c <> BAR.
Proof. intros H ->. vm_compute in H. discriminate. Qed.

Lemma all_space_no_BAR (w : pystr) : all_space w = true -> ~ In BAR w.
Proof.
  induction w as [|c w IH]; simpl; [tauto|].
  intros H. apply andb_true_iff in H as [Hc Hw].
  intros [E|E]; [exact (isspace_not_BAR c Hc E) | exact (IH Hw E)].
Qed.

Lemma fields_lstrip (x : pystr) : fields (lstrip x) = fields x.
Proof.
  unfold fields. induction x as [|c x IH]; simpl lstrip; [reflexivity|].
  destruct (isspace c) eqn:Ec; [|reflexivity].
  destruct (split_cons_other BAR c x (isspace_not_BAR c Ec)) as (seg & segs & E1 & E2).
  rewrite IH, E2, E1. simpl. rewrite strip_cons_space by exact Ec. reflexivity.
Qed.

Lemma fields_rstrip (x : pystr) : fields (rstrip x) = fields x.
Proof.
  unfold fields. destruct (rstrip_decompose x) as (w & Hw & E).
  rewrite E at 2. rewrite split_app_tail by exact (all_space_no_BAR w Hw).
  rewrite map_app. simpl. rewrite strip_app_space by exact Hw.
  set (segs := split BAR (rstrip x)).
  assert (Hsegs : segs = removelast segs ++ [last segs []])
    by (apply app_removelast_last, split_not_nil).
  rewrite Hsegs at 1. rewrite map_app. reflexivity.
Qed.

(** Trimming the whole line first does not change the trimmed segments. *)
Lemma fields_strip (x : pystr) : fields (strip x) = fields x.
Proof. unfold strip. rewrite fields_rstrip. apply fields_lstrip. Qed.

Lemma fields_blank (x : pystr) : strip x = [] -> fields x = [[]].
Proof. intros H. rewrite <- fields_strip, H. reflexivity. Qed.

Lemma fields_clean (line f : pystr) : In f (fields line) -> clean f.
Proof.
  unfold fields. rewrite in_map_iff. intros (seg & <- & H).
  split; [|split; [apply strip_starts | apply strip_ends]].
  intros Hb. apply In_strip in Hb. exact (split_no_sep BAR _ _ H Hb).
Qed.

Lemma clean_strip (f : pystr) : clean f -> strip f = f.
Proof. intros (_ & H1 & H2). apply strip_fixed; assumption. Qed.

(** The segments of a formatted record are the record's fields, padded
    with one space on the inner sides. *)
Lemma split_format_record (t l s m : pystr) :
  ~ In BAR t -> ~ In BAR l -> ~ In BAR s -> ~ In BAR m ->
  split BAR (format_record t l s m)
  = [t ++ [SPACE]; [SPACE] ++ l ++ [SPACE]; [SPACE] ++ s ++ [SPACE];
     [SPACE] ++ m].
Proof.
  intros Ht Hl Hs Hm. unfold format_record.
  assert (Hsp : forall x, ~ In BAR x -> ~ In BAR ([SPACE] ++ x)).
  { intros x Hx [E|E]; [discriminate E | exact (Hx E)]. }
  assert (Hps : forall x, ~ In BAR x -> ~ In BAR (x ++ [SPACE])).
  { intros x Hx H. apply in_app_or in H as [H|[E|[]]];
      [exact (Hx H) | discriminate E]. }
  change (py " | ") with ([SPACE] ++ BAR :: [SPACE]).
  repeat rewrite <- app_assoc. simpl app.
  replace (t ++ SPACE :: BAR :: SPACE :: l ++ SPACE :: BAR :: SPACE :: s
             ++ SPACE :: BAR :: SPACE :: m)
    with ((t ++ [SPACE]) ++ BAR ::
          (([SPACE] ++ l ++ [SPACE]) ++ BAR ::
           (([SPACE] ++ s ++ [SPACE]) ++ BAR :: ([SPACE] ++ m)))).
  2:{ repeat (rewrite <- app_assoc; simpl app). reflexivity. }
  rewrite split_app by auto.
  rewrite split_app by auto.
  rewrite split_app by auto.
  rewrite split_none by auto. reflexivity.
Qed.

Lemma fields_format_record (t l s m : pystr) :
  clean t -> clean l -> clean s -> clean m ->
  fields (format_record t l s m) = [t; l; s; m].
Proof.
  intros Ht Hl Hs Hm. unfold fields.
  rewrite split_format_record by (apply Ht || apply Hl || apply Hs || apply Hm).
  assert (Hpad : forall w1 w2 x, all_space w1 = true -> all_space w2 = true ->
                                 clean x -> strip (w1 ++ x ++ w2) = x).
  { intros w1 w2 x H1 H2 Hx. rewrite strip_pad by assumption.
    apply clean_strip, Hx. }
  assert (E1 : strip (t ++ [SPACE]) = t)
    by (apply (Hpad [] [SPACE] t); auto).
  assert (E2 : strip ([SPACE] ++ l ++ [SPACE]) = l) by (apply Hpad; auto).
  assert (E3 : strip ([SPACE] ++ s ++ [SPACE]) = s) by (apply Hpad; auto).
  assert (E4 : strip ([SPACE] ++ m) = m).
  { rewrite <- (app_nil_r m) at 1. apply (Hpad [SPACE] [] m); auto. }
  cbn [List.map]. rewrite E1, E2, E3, E4. reflexivity.
Qed.

End Fields.

(* ===================================================================== *)
(** ** The two scripts agree on parsing, matching and scanning            *)
(* ===================================================================== *)

Section Variants.

Lemma four_Some (parts : list pystr) (t l s m : pystr) :
  four parts = Some (t, l, s, m) <-> parts = [t; l; s; m].
Proof.
  destruct parts as [|a [|b [|c [|d [|e parts]]]]]; simpl;
    split; intros H; try discriminate H; congruence.
Qed.

Lemma four_None (parts : list pystr) :
  four parts = None <-> List.length parts <> 4.
Proof.
  destruct parts as [|a [|b [|c [|d [|e parts]]]]]; simpl;
    split; intros H; try discriminate H; try lia; congruence.
Qed.

Lemma Root_parse_line_four (line : pystr) :
  Root.parse_line line = four (fields (strip line)).
Proof.
  unfold Root.parse_line, fields.
  destruct line as [|c line]; [reflexivity|]. cbn [nonempty negb].
  destruct (strip (c :: line)) as [|d raw] eqn:E; [reflexivity|].
  cbn [nonempty negb].
  destruct (List.map strip (split BAR (d :: raw)))
    as [|x1 [|x2 [|x3 [|x4 [|x5 parts]]]]]; reflexivity.
Qed.

Lemma Day2_parse_line_four (line : pystr) :
  Day2.parse_line line = four (fields (strip line)).
Proof.
  unfold Day2.parse_line, fields.
  destruct (strip line) as [|d raw] eqn:E; [reflexivity|].
  cbn [nonempty negb].
  destruct (List.map strip (split BAR (d :: raw)))
    as [|x1 [|x2 [|x3 [|x4 [|x5 parts]]]]]; reflexivity.
Qed.

Lemma parse_line_agree (line : pystr) :
  Day2.parse_line line = Root.parse_line line.
Proof. rewrite Day2_parse_line_four, Root_parse_line_four. reflexivity. Qed.

(** Trimming the line first is immaterial to the result. *)
Lemma Root_parse_line_fields (line : pystr) :
  Root.parse_line line = four (fields line).
Proof. rewrite Root_parse_line_four, fields_strip. reflexivity. Qed.

Lemma matches_filters_agree (level service : pystr) (lf sf : option pystr) :
  Day2.matches_filters level service lf sf
  = Root.matches_filters level service lf sf.
Proof. reflexivity. Qed.

Lemma scan_line_agree (lf sf : option pystr) (st : scan_state) (line : pystr) :
  Day2.scan_line lf sf st line = Root.scan_line lf sf st line.
Proof.
  unfold Day2.scan_line, Root.scan_line. rewrite parse_line_agree. reflexivity.
Qed.

Lemma scan_agree (lf sf : option pystr) (lines : list pystr) :
  Day2.scan lf sf lines = Root.scan lf sf lines.
Proof.
  unfold Day2.scan, Root.scan.
  generalize {| total_valid_scanned := 0; lines_written := 0;
                output_lines := [] |}.
  induction lines as [|line lines IH]; intros st; simpl; [reflexivity|].
  rewrite scan_line_agree. apply IH.
Qed.

Lemma Root_scan_snoc (lf sf : option pystr) (lines : list pystr) (line : pystr) :
  Root.scan lf sf (lines ++ [line])
  = Root.scan_line lf sf (Root.scan lf sf lines) line.
Proof. unfold Root.scan. rewrite fold_left_app. reflexivity. Qed.

End Variants.

(* ===================================================================== *)
(** ** Valid records and what the scan keeps                              *)
(* ===================================================================== *)

Section Scan.

Lemma valid_record_Some (line : pystr) :
  valid_line line <-> exists r, valid_record line = Some r.
Proof.
  unfold valid_line, valid_record. split.
  - intros (t & l & s & m & E & H). rewrite E. cbn [four].
    apply mem_In in H. rewrite H. eauto.
  - intros (r & H).
    destruct (four _) as [[[[t l] s] m]|] eqn:E; [|discriminate].
    apply four_Some in E.
    destruct (mem (upper l) ALLOWED_LEVELS) eqn:Hl; [|discriminate].
    exists t, l, s, m. split; [exact E | apply mem_In, Hl].
Qed.

Lemma valid_record_None (line : pystr) :
  ~ valid_line line <-> valid_record line = None.
Proof.
  rewrite valid_record_Some. destruct (valid_record line) as [r|].
  - split; [intros H; elim H; eauto | discriminate].
  - split; [reflexivity | intros _ (r & H); discriminate].
Qed.

(** One loop iteration, in terms of the line's valid record. *)
Lemma Root_scan_line_record (lf sf : option pystr) (st : scan_state) (line : pystr) :
  Root.scan_line lf sf st line =
  match valid_record line with
  | None => st
  | Some (t, lv, s, m) =>
      if Root.matches_filters lv s lf sf then
        {| total_valid_scanned := S (total_valid_scanned st);
           lines_written := S (lines_written st);
           output_lines := output_lines st ++ [format_record t lv s m] |}
      else
        {| total_valid_scanned := S (total_valid_scanned st);
           lines_written := lines_written st;
           output_lines := output_lines st |}
  end.
Proof.
  unfold Root.scan_line, valid_record. rewrite Root_parse_line_four.
  unfold fields.
  destruct (four _) as [[[[t l] s] m]|]; [|reflexivity].
  destruct (mem (upper l) ALLOWED_LEVELS); reflexivity.
Qed.

Lemma Root_fold_scan (lf sf : option pystr) (lines : list pystr) (st : scan_state) :
  let st' := fold_left (Root.scan_line lf sf) lines st in
  total_valid_scanned st'
    = total_valid_scanned st + List.length (filter is_valid_line lines)
  /\ lines_written st'
    = lines_written st + List.length (flat_map (kept_line lf sf) lines)
  /\ output_lines st' = output_lines st ++ flat_map (kept_line lf sf) lines.
Proof.
  revert st. induction lines as [|line lines IH]; intros st; cbn zeta; simpl.
  - rewrite app_nil_r. repeat split; lia.
  - destruct (IH (Root.scan_line lf sf st line)) as (H1 & H2 & H3).
    rewrite H1, H2, H3. clear IH H1 H2 H3.
    rewrite Root_scan_line_record. unfold kept_line, is_valid_line.
    destruct (valid_record line) as [[[[t lv] s] m]|].
    + destruct (Root.matches_filters lv s lf sf); simpl;
        rewrite <- ?app_assoc; simpl; repeat split; lia.
    + simpl. repeat split; lia.
Qed.

Lemma Root_scan_spec (lf sf : option pystr) (lines : list pystr) :
  total_valid_scanned (Root.scan lf sf lines)
    = List.length (filter is_valid_line lines)
  /\ lines_written (Root.scan lf sf lines)
    = List.length (flat_map (kept_line lf sf) lines)
  /\ output_lines (Root.scan lf sf lines) = flat_map (kept_line lf sf) lines.
Proof. unfold Root.scan. apply Root_fold_scan. Qed.

End Scan.

(* ===================================================================== *)
(** ** The line parser                                                    *)
(* ===================================================================== *)

Lemma Root_parse_line_Some (line t l s m : pystr) :
  Root.parse_line line = Some (t, l, s, m)
  <-> strip line <> []
      /\ List.map strip (split BAR (strip line)) = [t; l; s; m].
Proof.
  rewrite Root_parse_line_four, four_Some. unfold fields. split.
  - intros H. split; [|exact H]. intros E. rewrite E in H. discriminate H.
  - intros [_ H]. exact H.
Qed.

Lemma Root_parse_line_None (line : pystr) :
  Root.parse_line line = None
  <-> strip line = [] \/ List.length (split BAR (strip line)) <> 4.
Proof.
  rewrite Root_parse_line_four, four_None. unfold fields.
  rewrite length_map. split.
  - intros H. right. exact H.
  - intros [E|H]; [rewrite E; simpl; lia | exact H].
Qed.

(** C2.  The line parser returns the four trimmed segments, in order, when
    the trimmed line is non-empty and splitting it on ['|'] gives exactly
    four segments; otherwise (blank line, or a segment count other than
    four) it returns the invalid result [None].  This holds for both
    scripts. *)
Theorem parse_line_contract (line : pystr) :
  (forall t l s m,
      Root.parse_line line = Some (t, l, s, m)
      <-> strip line <> []
          /\ List.map strip (split BAR (strip line)) = [t; l; s; m])
  /\ (Root.parse_line line = None
      <-> strip line = [] \/ List.length (split BAR (strip line)) <> 4)
  /\ (forall t l s m,
      Day2.parse_line line = Some (t, l, s, m)
      <-> strip line <> []
          /\ List.map strip (split BAR (strip line)) = [t; l; s; m])
  /\ (Day2.parse_line line = None
      <-> strip line = [] \/ List.length (split BAR (strip line)) <> 4).
Proof.
  rewrite parse_line_agree.
  split; [intros; apply Root_parse_line_Some|].
  split; [apply Root_parse_line_None|].
  split; [intros; apply Root_parse_line_Some | apply Root_parse_line_None].
Qed.

(** C10.  Every field of a successfully parsed record is free of ['|'] and
    has no whitespace at either end, so it equals its own trimmed form;
    and the formatted line of such a record parses back to the same four
    fields (the ['|'] of the format are the only ones), in both scripts. *)
Theorem parsed_fields_clean (line t l s m : pystr) :
  Root.parse_line line = Some (t, l, s, m) ->
  Day2.parse_line line = Some (t, l, s, m)
  /\ Forall (fun f => ~ In BAR f
                      /\ starts_space f = false /\ ends_space f = false
                      /\ strip f = f) [t; l; s; m]
  /\ Root.parse_line (format_record t l s m) = Some (t, l, s, m)
  /\ Day2.parse_line (format_record t l s m) = Some (t, l, s, m).
Proof.
  intros H. rewrite !parse_line_agree. split; [exact H|].
  rewrite Root_parse_line_four in H. apply four_Some in H.
  assert (Hc : forall f, In f [t; l; s; m] -> clean f).
  { intros f Hf. rewrite <- H in Hf. exact (fields_clean _ _ Hf). }
  split.
  - apply Forall_forall. intros f Hf. pose proof (Hc f Hf) as Hcf.
    pose proof (clean_strip f Hcf). unfold clean in Hcf. tauto.
  - rewrite Root_parse_line_fields, fields_format_record;
      [split; reflexivity | | | |]; apply Hc; simpl; auto.
Qed.

Lemma parsed_fields_clean_witness :
  Root.parse_line (py "  a | info|auth |  login ok ")
    = Some (py "a", py "info", py "auth", py "login ok")
  /\ Root.parse_line (py "a | info | auth | login ok")
    = Some (py "a", py "info", py "auth", py "login ok").
Proof.
  split; [reflexivity|].
  apply (parsed_fields_clean (py "  a | info|auth |  login ok ")
           (py "a") (py "info") (py "auth") (py "login ok")).
  reflexivity.
Defined.

(* ===================================================================== *)
(** ** The level validator                                                *)
(* ===================================================================== *)

(** C4.  The level validator is true exactly when the uppercased input
    ([src/log_tool.py]: the trimmed, then uppercased input) is one of
    INFO, WARN, ERROR; ["info"], ["Info"] and ["INFO"] are all accepted. *)
Theorem is_valid_level_contract (level : pystr) :
  (Root.is_valid_level level = true
   <-> In (upper (strip level)) [py "INFO"; py "WARN"; py "ERROR"])
  /\ (Day2.is_valid_level level = true
      <-> In (upper level) [py "INFO"; py "WARN"; py "ERROR"])
  /\ Forall (fun l => Root.is_valid_level l = true
                      /\ Day2.is_valid_level l = true)
            [py "info"; py "Info"; py "INFO"].
Proof.
  split; [apply mem_In|]. split; [apply mem_In|].
  repeat constructor.
Qed.

(* ===================================================================== *)
(** ** The filter matcher                                                 *)
(* ===================================================================== *)

Lemma differs_from_false (x : pystr) (f : option pystr) :
  differs_from x f = false <-> f = None \/ f = Some x.
Proof.
  destruct f as [v|]; simpl.
  - rewrite negb_false_iff, str_eqb_eq. split.
    + intros ->. right. reflexivity.
    + intros [H|H]; [discriminate H | congruence].
  - split; auto.
Qed.

Lemma Root_matches_filters_true (level service : pystr) (lf sf : option pystr) :
  Root.matches_filters level service lf sf = true
  <-> (lf = None \/ lf = Some (upper level))
      /\ (sf = None \/ sf = Some service).
Proof.
  unfold Root.matches_filters.
  rewrite <- !differs_from_false.
  destruct (differs_from (upper level) lf), (differs_from service sf);
    intuition discriminate.
Qed.

(** C3 (as the code has it).  The filter matcher returns true exactly when
    (the level filter is absent or equals the UPPERCASED level) and (the
    service filter is absent or equals the service, case-sensitively). *)
Theorem matches_filters_contract (level service : pystr) (lf sf : option pystr) :
  (Root.matches_filters level service lf sf = true
   <-> (lf = None \/ lf = Some (upper level))
       /\ (sf = None \/ sf = Some service))
  /\ (Day2.matches_filters level service lf sf = true
      <-> (lf = None \/ lf = Some (upper level))
          /\ (sf = None \/ sf = Some service)).
Proof. split; apply Root_matches_filters_true. Qed.

(** C3 as stated fails: a lower-case level matches an upper-case filter
    it is not equal to. *)
Lemma matches_filters_not_plain_equality :
  ~ (Root.matches_filters (py "error") (py "auth") (Some (py "ERROR")) None
       = true
     <-> (Some (py "ERROR") = None \/ Some (py "ERROR") = Some (py "error"))
         /\ (@None pystr = None \/ None = Some (py "auth"))).
Proof.
  intros [H _]. destruct (H eq_refl) as [[E|E] _]; discriminate E.
Qed.

(** The levels the driver passes are already in upper case; for them the
    comparison is plain equality. *)
Lemma allowed_upper (lv : pystr) : In lv ALLOWED_LEVELS -> upper lv = lv.
Proof.
  intros [<-|[<-|[<-|[]]]]; reflexivity.
Qed.

Lemma matches_filters_allowed (lv service : pystr) (lf sf : option pystr) :
  In lv ALLOWED_LEVELS ->
  (Root.matches_filters lv service lf sf = true
   <-> (lf = None \/ lf = Some lv) /\ (sf = None \/ sf = Some service)).
Proof.
  intros H. rewrite Root_matches_filters_true, (allowed_upper lv H).
  reflexivity.
Qed.

Lemma Root_matches_filters_narrows (level service : pystr)
    (lf sf lf' sf' : option pystr) :
  narrows lf lf' -> narrows sf sf' ->
  Root.matches_filters level service lf' sf' = true ->
  Root.matches_filters level service lf sf = true.
Proof.
  intros Hl Hs. rewrite !Root_matches_filters_true.
  intros [H1 H2]. split.
  - destruct Hl as [->| ->]; [left; reflexivity | exact H1].
  - destruct Hs as [->| ->]; [left; reflexivity | exact H2].
Qed.

Lemma kept_line_narrows (lf sf lf' sf' : option pystr) (line : pystr) :
  narrows lf lf' -> narrows sf sf' ->
  incl (kept_line lf' sf' line) (kept_line lf sf line).
Proof.
  intros Hl Hs. unfold kept_line.
  destruct (valid_record line) as [[[[t lv] s] m]|]; [|apply incl_refl].
  destruct (Root.matches_filters lv s lf' sf') eqn:E; [|apply incl_nil_l].
  rewrite (Root_matches_filters_narrows lv s lf sf lf' sf' Hl Hs E).
  apply incl_refl.
Qed.

(** C5.  The filter predicate is monotonic: with no filters every record
    matches, and narrowing the filters (making an absent filter present)
    can only remove matches: whatever matches the narrower pair matches
    the wider one, and the lines a scan keeps under the narrower pair are
    among those it keeps under the wider one. *)
Theorem matches_filters_monotone (lf sf lf' sf' : option pystr) :
  narrows lf lf' -> narrows sf sf' ->
  (forall level service,
      Root.matches_filters level service None None = true
      /\ Day2.matches_filters level service None None = true)
  /\ (forall level service,
      Root.matches_filters level service lf' sf' = true ->
      Root.matches_filters level service lf sf = true)
  /\ (forall level service,
      Day2.matches_filters level service lf' sf' = true ->
      Day2.matches_filters level service lf sf = true)
  /\ (forall lines,
      incl (output_lines (Root.scan lf' sf' lines))
           (output_lines (Root.scan lf sf lines))
      /\ incl (output_lines (Day2.scan lf' sf' lines))
              (output_lines (Day2.scan lf sf lines))).
Proof.
  intros Hl Hs. split; [intros; split; reflexivity|].
  split; [intros level service; apply Root_matches_filters_narrows; assumption|].
  split; [intros level service; apply Root_matches_filters_narrows; assumption|].
  intros lines. rewrite !scan_agree.
  assert (H : incl (output_lines (Root.scan lf' sf' lines))
                   (output_lines (Root.scan lf sf lines))).
  { destruct (Root_scan_spec lf sf lines) as (_ & _ & ->).
    destruct (Root_scan_spec lf' sf' lines) as (_ & _ & ->).
    intros x Hx. apply in_flat_map in Hx as (line & Hin & Hx).
    apply in_flat_map. exists line. split; [exact Hin|].
    exact (kept_line_narrows lf sf lf' sf' line Hl Hs x Hx). }
  split; exact H.
Qed.

Lemma matches_filters_monotone_witness :
  narrows None (Some (py "ERROR")) /\ narrows (@None pystr) None
  /\ incl (output_lines
             (Root.scan (Some (py "ERROR")) None
                [py "t1 | error | db | down"; py "t2 | info | api | up"]))
          (output_lines
             (Root.scan None None
                [py "t1 | error | db | down"; py "t2 | info | api | up"])).
Proof.
  assert (H1 : narrows None (Some (py "ERROR"))) by (left; reflexivity).
  assert (H2 : narrows (@None pystr) None) by (left; reflexivity).
  split; [exact H1|]. split; [exact H2|].
  destruct (matches_filters_monotone None None (Some (py "ERROR")) None H1 H2)
    as (_ & _ & _ & H).
  exact (proj1 (H [py "t1 | error | db | down"; py "t2 | info | api | up"])).
Defined.

(* ===================================================================== *)
(** ** The scan                                                           *)
(* ===================================================================== *)

Lemma Root_scan_step (lf sf : option pystr) (lines : list pystr) (line : pystr) :
  (total_valid_scanned (Root.scan lf sf (lines ++ [line]))
   = S (total_valid_scanned (Root.scan lf sf lines))
   <-> valid_line line)
  /\ (~ valid_line line ->
      Root.scan lf sf (lines ++ [line]) = Root.scan lf sf lines).
Proof.
  rewrite Root_scan_snoc, Root_scan_line_record.
  pose proof (valid_record_Some line) as HS.
  pose proof (valid_record_None line) as HN.
  destruct (valid_record line) as [[[[t lv] s] m]|].
  - split.
    + split; [intros _; apply HS; eauto|].
      intros _. destruct (Root.matches_filters lv s lf sf); reflexivity.
    + intros Hn. apply HN in Hn. discriminate Hn.
  - split; [|reflexivity]. split.
    + intros H. lia.
    + intros Hv. apply HS in Hv as (r & Hr). discriminate Hr.
Qed.

(** C1.  Whatever the input file and the filters, a line increments the
    valid-scanned counter exactly when it parses to four trimmed
    pipe-separated fields and its uppercased level is INFO, WARN or ERROR;
    a line failing either check leaves the whole loop state (both counters
    and the output buffer) as it was.  In both scripts. *)
Theorem valid_scanned_counts_valid_lines
    (lf sf : option pystr) (lines : list pystr) (line : pystr) :
  (total_valid_scanned (Root.scan lf sf (lines ++ [line]))
   = S (total_valid_scanned (Root.scan lf sf lines))
   <-> valid_line line)
  /\ (~ valid_line line ->
      Root.scan lf sf (lines ++ [line]) = Root.scan lf sf lines)
  /\ (total_valid_scanned (Day2.scan lf sf (lines ++ [line]))
      = S (total_valid_scanned (Day2.scan lf sf lines))
      <-> valid_line line)
  /\ (~ valid_line line ->
      Day2.scan lf sf (lines ++ [line]) = Day2.scan lf sf lines).
Proof.
  rewrite !scan_agree.
  destruct (Root_scan_step lf sf lines line) as [H1 H2].
  repeat split; try apply H1; exact H2.
Qed.

Lemma three_fields_not_valid : ~ valid_line (py "t3 | error | db").
Proof.
  intros (t & l & s & m & E & _). vm_compute in E. discriminate E.
Qed.

Lemma valid_scanned_counts_valid_lines_witness :
  Root.scan None None [py "t1 | info | auth | ok"; py "t3 | error | db"]
  = Root.scan None None [py "t1 | info | auth | ok"].
Proof.
  exact (proj1 (proj2 (valid_scanned_counts_valid_lines None None
                         [py "t1 | info | auth | ok"] (py "t3 | error | db")))
           three_fields_not_valid).
Defined.

Lemma allowed_clean (lv : pystr) : In lv ALLOWED_LEVELS -> clean lv.
Proof.
  intros [<-|[<-|[<-|[]]]]; unfold clean; vm_compute;
    intuition discriminate.
Qed.

(** C8.  Round trip.  When a parsed line is kept (the loop iteration adds
    to the written counter), the line emitted is
    [timestamp | LEVEL | service | message] built from the line's trimmed
    fields with the level in upper case; the trimmed fields of that output
    line are those of the input record except for the uppercased level,
    and parsing the output line again yields exactly that record.  In both
    scripts. *)
Theorem kept_record_round_trip
    (lf sf : option pystr) (st : scan_state) (line t l s m : pystr) :
  Root.parse_line line = Some (t, l, s, m) ->
  lines_written (Root.scan_line lf sf st line) = S (lines_written st) ->
  let out := format_record t (upper l) s m in
  output_lines (Root.scan_line lf sf st line) = output_lines st ++ [out]
  /\ output_lines (Day2.scan_line lf sf st line) = output_lines st ++ [out]
  /\ List.map strip (split BAR out) = [t; upper l; s; m]
  /\ Root.parse_line out = Some (t, upper l, s, m)
  /\ Day2.parse_line out = Some (t, upper l, s, m).
Proof.
  intros Hp Hw out. rewrite scan_line_agree, parse_line_agree.
  assert (Hf : fields (strip line) = [t; l; s; m]).
  { rewrite Root_parse_line_four in Hp. apply four_Some, Hp. }
  unfold Root.scan_line in *. rewrite Hp in *.
  destruct (mem (upper l) ALLOWED_LEVELS) eqn:Hl; cbn [negb] in *; [|lia].
  destruct (Root.matches_filters (upper l) s lf sf); simpl in Hw; [|lia].
  assert (Hout : fields out = [t; upper l; s; m]).
  { apply fields_format_record.
    - apply (fields_clean (strip line)). rewrite Hf. simpl. auto.
    - apply allowed_clean, mem_In, Hl.
    - apply (fields_clean (strip line)). rewrite Hf. simpl. auto.
    - apply (fields_clean (strip line)). rewrite Hf. simpl. auto. }
  assert (Hre : Root.parse_line out = Some (t, upper l, s, m)).
  { rewrite Root_parse_line_fields, Hout. reflexivity. }
  repeat split; try reflexivity; assumption.
Qed.

Lemma kept_record_round_trip_witness :
  Root.parse_line (py "2024-01-01T00:00:00 | info | auth | login ok")
  = Some (py "2024-01-01T00:00:00", py "info", py "auth", py "login ok")
  /\ Root.parse_line (py "2024-01-01T00:00:00 | INFO | auth | login ok")
     = Some (py "2024-01-01T00:00:00", py "INFO", py "auth", py "login ok").
Proof.
  split; [reflexivity|].
  exact (proj1 (proj2 (proj2 (proj2
    (kept_record_round_trip None None
       {| total_valid_scanned := 0; lines_written := 0; output_lines := [] |}
       (py "2024-01-01T00:00:00 | info | auth | login ok")
       (py "2024-01-01T00:00:00") (py "info") (py "auth") (py "login ok")
       eq_refl eq_refl))))).
Defined.

(* ===================================================================== *)
(** ** The output file                                                    *)
(* ===================================================================== *)

Lemma file_content_terminated (ls : list pystr) :
  file_content ls = terminated_lines ls.
Proof.
  unfold file_content, terminated_lines.
  destruct ls as [|x ls]; [reflexivity|]. cbn [nonempty_list].
  revert x. induction ls as [|y ls IH]; intros x.
  - simpl. rewrite app_nil_r. reflexivity.
  - change (join [NL] (x :: y :: ls)) with (x ++ [NL] ++ join [NL] (y :: ls)).
    transitivity ((x ++ [NL]) ++ flat_map (fun l => l ++ [NL]) (y :: ls));
      [|reflexivity].
    rewrite <- IH, <- !app_assoc. reflexivity.
Qed.

Lemma Day2_main_accepted (a : args) (w : world) :
  level_accepted a = true ->
  Day2.main a w
  = Day2.main_scan (level_filter_of a) (service_filter_of a)
      (mkPath (arg_out a)) w.
Proof.
  unfold level_accepted, Day2.main.
  fold (level_filter_of a). fold (service_filter_of a).
  destruct (level_filter_of a) as [lf|]; [|reflexivity].
  intros ->. reflexivity.
Qed.

(** C7.  When the scan runs and the output path can be written, the run
    writes exactly one file, at the output path, and its content is the
    formatted kept records in input order, each followed by a line break
    and nothing else; with no kept record the content is empty (zero
    bytes).  The scan runs in [src/log_tool.py] when the input exists (and
    the output directory can be made), in [src/day 2 task/log_tool.py]
    when moreover the [--level] guard passes. *)
Theorem output_file_content (a : args) (w : world) (lines : list pystr) :
  logs w = Some lines ->
  write_ok w (mkPath (arg_out a)) = true ->
  (mkdir_ok w (path_parent (mkPath (arg_out a))) = true ->
   (forall p c,
       In (WriteText p c) (effects (Root.main a w))
       <-> p = mkPath (arg_out a)
           /\ c = terminated_lines (kept_lines a lines))
   /\ (kept_lines a lines = [] ->
       In (WriteText (mkPath (arg_out a)) []) (effects (Root.main a w))))
  /\ (level_accepted a = true ->
      (forall p c,
          In (WriteText p c) (effects (Day2.main a w))
          <-> p = mkPath (arg_out a)
              /\ c = terminated_lines (kept_lines a lines))
      /\ (kept_lines a lines = [] ->
          In (WriteText (mkPath (arg_out a)) []) (effects (Day2.main a w)))).
Proof.
  intros Hlogs Hwr.
  pose proof (Root_scan_spec (level_filter_of a) (service_filter_of a) lines)
    as (_ & _ & Hout).
  split.
  - intros Hmk.
    assert (HR : exists e1 e2 e3,
               effects (Root.main a w)
               = [Mkdir (path_parent (mkPath (arg_out a)));
                  WriteText (mkPath (arg_out a))
                    (terminated_lines (kept_lines a lines));
                  Print e1; Print e2; Print e3]).
    { unfold Root.main. fold (level_filter_of a). fold (service_filter_of a).
      rewrite Hlogs, Hmk, Hwr. cbn [negb effects].
      rewrite file_content_terminated, Hout. eauto. }
    destruct HR as (e1 & e2 & e3 & ->). split.
    + intros p c. simpl. split.
      * intros [H|[H|[H|[H|[H|[]]]]]]; try discriminate H.
        injection H as <- <-. split; reflexivity.
      * intros [-> ->]. auto.
    + intros ->. simpl. auto.
  - intros Hlv.
    assert (HD : exists e1 e2 e3,
               effects (Day2.main a w)
               = [WriteText (mkPath (arg_out a))
                    (terminated_lines (kept_lines a lines));
                  Print e1; Print e2; Print e3]).
    { rewrite (Day2_main_accepted a w Hlv). unfold Day2.main_scan.
      rewrite Hlogs, Hwr. cbn [negb effects].
      rewrite file_content_terminated, !scan_agree, Hout. eauto. }
    destruct HD as (e1 & e2 & e3 & ->). split.
    + intros p c. simpl. split.
      * intros [H|[H|[H|[H|[]]]]]; try discriminate H.
        injection H as <- <-. split; reflexivity.
      * intros [-> ->]. auto.
    + intros ->. simpl. auto.
Qed.

Lemma output_file_content_witness :
  In (WriteText (mkPath (py "filtered_logs.txt"))
        (py "2024-01-01T00:00:00 | INFO | auth | login ok" ++ [NL]))
     (effects (Root.main default_args (writable_world (Some scenario_A))))
  /\ In (WriteText (mkPath (py "filtered_logs.txt"))
           (py "2024-01-01T00:00:00 | INFO | auth | login ok" ++ [NL]))
        (effects (Day2.main default_args (writable_world (Some scenario_A)))).
Proof.
  destruct (output_file_content default_args
              (writable_world (Some scenario_A)) scenario_A eq_refl eq_refl)
    as [HR HD].
  split.
  - apply (proj1 (HR eq_refl)). split; reflexivity.
  - apply (proj1 (HD eq_refl)). split; reflexivity.
Defined.

(* ===================================================================== *)
(** ** The printed summary                                                *)
(* ===================================================================== *)

(** C6 (as the code has it).  When [logs.txt] does not exist,
    [src/log_tool.py] prints the three summary lines with zero counts and
    the output path and returns normally, with no other effect (no
    directory made, no file written); [src/day 2 task/log_tool.py]
    instead prints a single line starting [ERROR:] and returns normally,
    also without writing a file. *)
Theorem missing_input_file (a : args) (w : world) :
  logs w = None ->
  Root.main a w
  = {| effects := List.map Print (summary 0 0 (path_str (mkPath (arg_out a))));
       exit := Returned |}
  /\ exit (Day2.main a w) = Returned
  /\ exists msg, effects (Day2.main a w) = [Print (py "ERROR: " ++ msg)].
Proof.
  intros H. split; [unfold Root.main; rewrite H; reflexivity|].
  unfold Day2.main, Day2.main_scan. rewrite H.
  fold (level_filter_of a).
  destruct (level_filter_of a) as [lf|];
    [destruct (mem lf ALLOWED_LEVELS)|]; cbn [negb exit effects];
    (split; [reflexivity | eexists; reflexivity]).
Qed.

Lemma missing_input_file_witness :
  Root.main default_args (writable_world None)
  = {| effects := [Print (py "Valid lines scanned: 0");
                   Print (py "Lines written: 0");
                   Print (py "Output file: filtered_logs.txt")];
       exit := Returned |}.
Proof.
  exact (proj1 (missing_input_file default_args (writable_world None) eq_refl)).
Defined.

(** C6 as stated fails for [src/day 2 task/log_tool.py]: with the input
    file missing it prints one error line, not the three summary lines. *)
Lemma Day2_missing_input_no_summary :
  printed (Day2.main default_args (writable_world None))
  = [py "ERROR: Cannot find logs.txt. Put logs.txt in the same folder as this file."]
  /\ ~ exists n m out,
        printed (Day2.main default_args (writable_world None))
        = summary n m out.
Proof.
  split; [reflexivity|].
  intros (n & m & out & H).
  apply (f_equal (@List.length pystr)) in H. discriminate H.
Qed.

(** C9 (as the code has it).  [src/log_tool.py] prints exactly the three
    summary lines, in order, on every run that returns: with zero counts
    when the input is missing, otherwise with the number of valid lines
    and of kept lines; the third line shows the output path.
    [src/day 2 task/log_tool.py] prints the three lines (the third showing
    the output file's name) only when the level filter is absent or
    recognised and the input exists; otherwise it prints one [ERROR:]
    line.  A run that raises while writing prints nothing. *)
Theorem summary_lines (a : args) (w : world) :
  (logs w = None ->
   printed (Root.main a w) = summary 0 0 (path_str (mkPath (arg_out a))))
  /\ (forall lines,
      logs w = Some lines ->
      (exit (Root.main a w) = Returned ->
       printed (Root.main a w)
       = summary (List.length (filter is_valid_line lines))
                 (List.length (kept_lines a lines))
                 (path_str (mkPath (arg_out a))))
      /\ (exit (Root.main a w) = Raised -> printed (Root.main a w) = []))
  /\ (forall lines,
      logs w = Some lines -> level_accepted a = true ->
      (exit (Day2.main a w) = Returned ->
       printed (Day2.main a w)
       = summary (List.length (filter is_valid_line lines))
                 (List.length (kept_lines a lines))
                 (path_name (mkPath (arg_out a))))
      /\ (exit (Day2.main a w) = Raised -> printed (Day2.main a w) = []))
  /\ (logs w = None \/ level_accepted a = false ->
      exit (Day2.main a w) = Returned
      /\ exists msg, printed (Day2.main a w) = [py "ERROR: " ++ msg]).
Proof.
  split; [intros H; unfold Root.main; rewrite H; reflexivity|].
  split; [|split].
  - intros lines H. unfold Root.main.
    fold (level_filter_of a). fold (service_filter_of a). rewrite H.
    destruct (Root_scan_spec (level_filter_of a) (service_filter_of a) lines)
      as (-> & -> & _).
    destruct (mkdir_ok w _); [destruct (write_ok w _)|]; cbn [negb exit];
      split; intros E; try discriminate E; reflexivity.
  - intros lines H Hlv. rewrite (Day2_main_accepted a w Hlv).
    unfold Day2.main_scan. rewrite H, scan_agree.
    destruct (Root_scan_spec (level_filter_of a) (service_filter_of a) lines)
      as (-> & -> & _).
    destruct (write_ok w _); cbn [negb exit];
      split; intros E; try discriminate E; reflexivity.
  - intros H. unfold level_accepted, Day2.main, Day2.main_scan in *.
    fold (level_filter_of a) in *.
    destruct (level_filter_of a) as [lf|].
    + destruct (mem lf ALLOWED_LEVELS); cbn [negb].
      * destruct H as [H|H]; [|discriminate H]. rewrite H.
        split; [reflexivity | eexists; reflexivity].
      * split; [reflexivity | eexists; reflexivity].
    + destruct H as [H|H]; [|discriminate H]. rewrite H.
      split; [reflexivity | eexists; reflexivity].
Qed.

Lemma summary_lines_witness :
  printed (Root.main default_args (writable_world (Some scenario_A)))
  = [py "Valid lines scanned: 1"; py "Lines written: 1";
     py "Output file: filtered_logs.txt"].
Proof.
  exact (proj1 (proj1 (proj2 (summary_lines default_args
                                (writable_world (Some scenario_A))))
                  scenario_A eq_refl) eq_refl).
Defined.

(** C9 as stated fails for [src/day 2 task/log_tool.py]: with an
    unrecognised [--level] it prints one error line and stops, though the
    input file exists. *)
Lemma Day2_unknown_level_no_summary :
  printed (Day2.main
             {| arg_level := Some (py "verb"); arg_service := None;
                arg_out := DEFAULT_OUT |}
             (writable_world (Some scenario_A)))
  = [py "ERROR: --level must be one of INFO, WARN, ERROR (got: verb)"]
  /\ ~ exists n m out,
        printed (Day2.main
                   {| arg_level := Some (py "verb"); arg_service := None;
                      arg_out := DEFAULT_OUT |}
                   (writable_world (Some scenario_A)))
        = summary n m out.
Proof.
  split; [reflexivity|].
  intros (n & m & out & H).
  apply (f_equal (@List.length pystr)) in H. discriminate H.
Qed.

(* ===================================================================== *)
(** ** The scenarios of the specification, run                            *)
(* ===================================================================== *)

(** Scenario B: an empty line, a three-field line and one valid ERROR
    line: one valid line scanned. *)
Example scenario_B :
  printed (Day2.main default_args
             (writable_world
                (Some [[NL]; py "t1 | info | auth" ++ [NL];
                       py "t2 | ERROR | db | disk full" ++ [NL]])))
  = [py "Valid lines scanned: 1"; py "Lines written: 1";
     py "Output file: filtered_logs.txt"].
Proof. reflexivity. Qed.

(** Scenario C: [--level warn --service api] on a WARN/api line and a
    WARN/db line: two valid lines, one written. *)
Example scenario_C :
  Root.main
    {| arg_level := Some (py "warn"); arg_service := Some (py "api");
       arg_out := py "out/warn_api.txt" |}
    (writable_world
       (Some [py "t1 | WARN | api | slow" ++ [NL];
              py "t2 | warn | db | lag" ++ [NL]]))
  = {| effects :=
         [Mkdir (mkPath (py "out"));
          WriteText (mkPath (py "out/warn_api.txt"))
            (py "t1 | WARN | api | slow" ++ [NL]);
          Print (py "Valid lines scanned: 2");
          Print (py "Lines written: 1");
          Print (py "Output file: out/warn_api.txt")];
       exit := Returned |}.
Proof. reflexivity. Qed.

(** A run whose output path cannot be written raises before printing. *)
Example unwritable_output :
  Root.main default_args
    {| logs := Some scenario_A;
       mkdir_ok := fun _ => true; write_ok := fun _ => false |}
  = {| effects := [Mkdir (mkPath []) ]; exit := Raised |}.
Proof. reflexivity. Qed.

(* ===================================================================== *)
(** ** Further properties of the parser                                   *)
(* ===================================================================== *)

Lemma length_split (sep : char) (s : pystr) :
  List.length (split sep s) = S (count_char sep s).
Proof.
  unfold count_char. induction s as [|c s IH]; [reflexivity|].
  cbn [split count_occ].
  destruct (N.eqb_spec c sep) as [->|Hc].
  - destruct (N.eq_dec sep sep) as [_|H]; [|elim H; reflexivity].
    simpl. rewrite IH. reflexivity.
  - destruct (N.eq_dec c sep) as [H|_]; [elim (Hc H)|].
    destruct (split sep s) as [|seg segs] eqn:E;
      [elim (split_not_nil sep s E)|].
    simpl in *. exact IH.
Qed.

Lemma In_split (sep c : char) (s seg : pystr) :
  In seg (split sep s) -> In c seg -> In c s.
Proof.
  revert seg. induction s as [|d s IH]; simpl; intros seg H Hc.
  - destruct H as [<-|[]]. exact Hc.
  - destruct (N.eqb_spec d sep) as [->|Hd].
    + destruct H as [<-|H]; [elim Hc | right; exact (IH seg H Hc)].
    + destruct (split sep s) as [|seg0 segs] eqn:E;
        [elim (split_not_nil sep s E)|].
      destruct H as [<-|H].
      * destruct Hc as [->|Hc]; [left; reflexivity|].
        right. apply (IH seg0); [left; reflexivity | exact Hc].
      * right. apply (IH seg); [right; exact H | exact Hc].
Qed.

(** X3.  A line is accepted by [parse_line] exactly when it contains three
    ['|'] characters, whatever else it contains (both scripts). *)
Theorem parse_line_three_bars (line : pystr) :
  ((exists r, Root.parse_line line = Some r) <-> count_char BAR line = 3)
  /\ ((exists r, Day2.parse_line line = Some r) <-> count_char BAR line = 3).
Proof.
  rewrite parse_line_agree.
  assert (H : (exists r, Root.parse_line line = Some r)
              <-> count_char BAR line = 3).
  { rewrite Root_parse_line_fields.
    pose proof (length_split BAR line) as HL.
    rewrite <- (length_map strip) in HL. fold (fields line) in HL.
    destruct (four (fields line)) as [r|] eqn:E.
    - split; [intros _ | eauto].
      destruct r as [[[t l] s] m]. apply four_Some in E.
      rewrite E in HL. simpl in HL. lia.
    - apply four_None in E. split; [intros (r & Hr); discriminate Hr|].
      intros H3. lia. }
  split; exact H.
Qed.

(** X4.  Whitespace around a line, such as its line break, does not change
    what [parse_line] returns (both scripts). *)
Theorem parse_line_ignores_padding (w1 w2 line : pystr) :
  all_space w1 = true -> all_space w2 = true ->
  Root.parse_line (w1 ++ line ++ w2) = Root.parse_line line
  /\ Day2.parse_line (w1 ++ line ++ w2) = Day2.parse_line line.
Proof.
  intros H1 H2. rewrite !parse_line_agree, !Root_parse_line_four.
  rewrite strip_pad by assumption. split; reflexivity.
Qed.

Lemma parse_line_ignores_padding_witness :
  Root.parse_line (py "  t | info | s | m" ++ [NL])
  = Root.parse_line (py "t | info | s | m").
Proof.
  exact (proj1 (parse_line_ignores_padding (py "  ") [NL]
                  (py "t | info | s | m") eq_refl eq_refl)).
Defined.

(** X5.  The loop's inline level check agrees with [is_valid_level] on
    parsed levels: a line is counted as valid exactly when [parse_line]
    returns a record whose level field [is_valid_level] accepts (either
    script's validator, though only one of them trims). *)
Theorem valid_line_is_valid_level (line : pystr) :
  (valid_line line <->
   exists t l s m, Root.parse_line line = Some (t, l, s, m)
                   /\ Root.is_valid_level l = true)
  /\ (valid_line line <->
      exists t l s m, Day2.parse_line line = Some (t, l, s, m)
                      /\ Day2.is_valid_level l = true).
Proof.
  assert (HD : valid_line line <->
               exists t l s m, Day2.parse_line line = Some (t, l, s, m)
                               /\ Day2.is_valid_level l = true).
  { unfold valid_line, Day2.is_valid_level.
    split; intros (t & l & s & m & H & Hl); exists t, l, s, m.
    - rewrite Day2_parse_line_four. split; [apply four_Some, H | apply mem_In, Hl].
    - rewrite Day2_parse_line_four in H. split; [apply four_Some, H | apply mem_In, Hl]. }
  split; [|exact HD].
  rewrite HD.
  split; intros (t & l & s & m & H & Hl); exists t, l, s, m;
    rewrite parse_line_agree in *; (split; [exact H|]);
    unfold Root.is_valid_level, Day2.is_valid_level in *;
    assert (Hs : strip l = l)
      by (apply clean_strip, (fields_clean (strip line));
          rewrite Root_parse_line_four in H; apply four_Some in H;
          rewrite H; simpl; auto).
  - rewrite Hs. exact Hl.
  - rewrite Hs in Hl. exact Hl.
Qed.

(* ===================================================================== *)
(** ** Further properties of the scan                                     *)
(* ===================================================================== *)

Lemma valid_record_emitted (line t lv s m : pystr) :
  valid_record line = Some (t, lv, s, m) -> emitted_record t lv s m.
Proof.
  unfold valid_record.
  destruct (four _) as [[[[t0 l0] s0] m0]|] eqn:E; [|discriminate].
  destruct (mem (upper l0) ALLOWED_LEVELS) eqn:Hl; [|discriminate].
  intros H. injection H as <- <- <- <-. apply four_Some in E.
  assert (Hc : forall f, In f [t0; l0; s0; m0] -> clean f).
  { intros f Hf. rewrite <- E in Hf.
    exact (fields_clean (strip line) f Hf). }
  unfold emitted_record.
  split; [apply Hc; simpl; auto|].
  split; [apply mem_In, Hl|].
  split; apply Hc; simpl; auto.
Qed.

Lemma valid_record_format (t lv s m w : pystr) :
  emitted_record t lv s m -> all_space w = true ->
  valid_record (format_record t lv s m ++ w) = Some (t, lv, s, m).
Proof.
  intros (Ht & Hl & Hs & Hm) Hw. unfold valid_record.
  rewrite strip_app_space by exact Hw.
  fold (fields (strip (format_record t lv s m))).
  rewrite fields_strip, fields_format_record;
    [|exact Ht | apply allowed_clean, Hl | exact Hs | exact Hm].
  cbn [four]. rewrite (allowed_upper lv Hl).
  apply mem_In in Hl. rewrite Hl. reflexivity.
Qed.

Lemma kept_line_inv (lf sf : option pystr) (line out : pystr) :
  In out (kept_line lf sf line) ->
  exists t lv s m,
    valid_record line = Some (t, lv, s, m)
    /\ Root.matches_filters lv s lf sf = true
    /\ out = format_record t lv s m.
Proof.
  unfold kept_line.
  destruct (valid_record line) as [[[[t lv] s] m]|]; [|intros []].
  destruct (Root.matches_filters lv s lf sf) eqn:E; [|intros []].
  intros [<-|[]]. exists t, lv, s, m. auto.
Qed.

Lemma kept_line_length (lf sf : option pystr) (line : pystr) :
  List.length (kept_line lf sf line)
  <= (if is_valid_line line then 1 else 0).
Proof.
  unfold kept_line, is_valid_line.
  destruct (valid_record line) as [[[[t lv] s] m]|]; [|simpl; lia].
  destruct (Root.matches_filters lv s lf sf); simpl; lia.
Qed.

Lemma kept_lines_le_valid (lf sf : option pystr) (lines : list pystr) :
  List.length (flat_map (kept_line lf sf) lines)
  <= List.length (filter is_valid_line lines).
Proof.
  induction lines as [|line lines IH]; simpl; [lia|].
  rewrite length_app. pose proof (kept_line_length lf sf line) as H.
  destruct (is_valid_line line); simpl; lia.
Qed.

Lemma is_valid_line_true (line : pystr) :
  is_valid_line line = true <-> valid_line line.
Proof.
  rewrite valid_record_Some. unfold is_valid_line.
  destruct (valid_record line); split; eauto; try discriminate.
  intros (r & H). discriminate H.
Qed.

(** X1.  After scanning any file, under any filters, the valid-scanned
    counter is the number of valid lines of the file, the written counter
    is the length of the output buffer, and written <= valid-scanned <=
    number of lines read (both scripts). *)
Theorem scan_counters (lf sf : option pystr) (lines : list pystr) :
  (forall line, is_valid_line line = true <-> valid_line line)
  /\ total_valid_scanned (Root.scan lf sf lines)
     = List.length (filter is_valid_line lines)
  /\ lines_written (Root.scan lf sf lines)
     = List.length (output_lines (Root.scan lf sf lines))
  /\ lines_written (Root.scan lf sf lines)
     <= total_valid_scanned (Root.scan lf sf lines)
  /\ total_valid_scanned (Root.scan lf sf lines) <= List.length lines
  /\ Day2.scan lf sf lines = Root.scan lf sf lines.
Proof.
  destruct (Root_scan_spec lf sf lines) as (H1 & H2 & H3).
  rewrite H1, H2, H3.
  split; [exact is_valid_line_true|].
  split; [reflexivity|]. split; [reflexivity|].
  split; [apply kept_lines_le_valid|].
  split; [apply filter_length_le | apply scan_agree].
Qed.

(** X2.  Scanning a file made of two parts: the counters are the sums of
    the parts' counters and the output buffer is the first part's output
    followed by the second's (both scripts). *)
Theorem scan_app (lf sf : option pystr) (l1 l2 : list pystr) :
  (total_valid_scanned (Root.scan lf sf (l1 ++ l2))
   = total_valid_scanned (Root.scan lf sf l1)
     + total_valid_scanned (Root.scan lf sf l2)
   /\ lines_written (Root.scan lf sf (l1 ++ l2))
      = lines_written (Root.scan lf sf l1) + lines_written (Root.scan lf sf l2)
   /\ output_lines (Root.scan lf sf (l1 ++ l2))
      = output_lines (Root.scan lf sf l1) ++ output_lines (Root.scan lf sf l2))
  /\ (total_valid_scanned (Day2.scan lf sf (l1 ++ l2))
      = total_valid_scanned (Day2.scan lf sf l1)
        + total_valid_scanned (Day2.scan lf sf l2)
      /\ lines_written (Day2.scan lf sf (l1 ++ l2))
         = lines_written (Day2.scan lf sf l1)
           + lines_written (Day2.scan lf sf l2)
      /\ output_lines (Day2.scan lf sf (l1 ++ l2))
         = output_lines (Day2.scan lf sf l1)
           ++ output_lines (Day2.scan lf sf l2)).
Proof.
  rewrite !scan_agree.
  destruct (Root_scan_spec lf sf (l1 ++ l2)) as (-> & -> & ->).
  destruct (Root_scan_spec lf sf l1) as (-> & -> & ->).
  destruct (Root_scan_spec lf sf l2) as (-> & -> & ->).
  rewrite filter_app, flat_map_app, !length_app. repeat split.
Qed.

(** X6.  Every line in the output buffer is a well-formed record that
    honours the filters: it is [timestamp | LEVEL | service | message]
    with LEVEL one of INFO, WARN, ERROR and equal to the level filter when
    there is one, the service equal to the service filter when there is
    one, and it parses back to exactly these fields (both scripts). *)
Theorem output_lines_honour_filters
    (lf sf : option pystr) (lines : list pystr) (out : pystr) :
  In out (output_lines (Root.scan lf sf lines))
  \/ In out (output_lines (Day2.scan lf sf lines)) ->
  exists t lv s m,
    out = format_record t lv s m
    /\ In lv ALLOWED_LEVELS
    /\ (forall f, lf = Some f -> lv = f)
    /\ (forall f, sf = Some f -> s = f)
    /\ Root.parse_line out = Some (t, lv, s, m)
    /\ Day2.parse_line out = Some (t, lv, s, m).
Proof.
  rewrite scan_agree. intros H.
  assert (Hin : In out (output_lines (Root.scan lf sf lines))) by tauto.
  clear H. destruct (Root_scan_spec lf sf lines) as (_ & _ & E).
  rewrite E in Hin. apply in_flat_map in Hin as (line & _ & Hin).
  apply kept_line_inv in Hin as (t & lv & s & m & Hv & Hm & ->).
  pose proof (valid_record_emitted line t lv s m Hv) as He.
  pose proof He as (Ht & Hl & Hs & Hmm).
  exists t, lv, s, m. split; [reflexivity|]. split; [exact Hl|].
  apply (matches_filters_allowed lv s lf sf Hl) in Hm as [Hlf Hsf].
  split; [intros f ->; destruct Hlf as [H|H]; congruence|].
  split; [intros f ->; destruct Hsf as [H|H]; congruence|].
  rewrite parse_line_agree, Root_parse_line_fields, fields_format_record;
    [split; reflexivity | exact Ht | apply allowed_clean, Hl
     | exact Hs | exact Hmm].
Qed.

Lemma output_lines_honour_filters_witness :
  exists t lv s m,
    py "t1 | WARN | api | slow" = format_record t lv s m
    /\ In lv ALLOWED_LEVELS
    /\ (forall f, Some (py "WARN") = Some f -> lv = f)
    /\ (forall f, Some (py "api") = Some f -> s = f)
    /\ Root.parse_line (py "t1 | WARN | api | slow") = Some (t, lv, s, m)
    /\ Day2.parse_line (py "t1 | WARN | api | slow") = Some (t, lv, s, m).
Proof.
  apply (output_lines_honour_filters (Some (py "WARN")) (Some (py "api"))
           [py "t1 | warn | api | slow"; py "t2 | warn | db | lag"]).
  left. left. reflexivity.
Defined.

Lemma rescan_kept (lf sf : option pystr) (outs : list pystr) :
  Forall (fun out => exists t lv s m,
              emitted_record t lv s m
              /\ Root.matches_filters lv s lf sf = true
              /\ out = format_record t lv s m) outs ->
  flat_map (kept_line lf sf) (List.map (fun l => l ++ [NL]) outs) = outs
  /\ filter is_valid_line (List.map (fun l => l ++ [NL]) outs)
     = List.map (fun l => l ++ [NL]) outs.
Proof.
  induction 1 as [|out outs (t & lv & s & m & He & Hm & ->) _ [IH1 IH2]];
    [split; reflexivity|].
  cbn [List.map flat_map filter]. unfold kept_line at 1, is_valid_line at 1.
  rewrite (valid_record_format t lv s m [NL] He eq_refl), Hm, IH1, IH2.
  split; reflexivity.
Qed.

(** X8.  Running the scan again on its own output reproduces it: if the
    lines kept from any file are written out (each with its line break)
    and scanned with the same filters, every one of them is valid, every
    one is kept, and the output buffer is the same (both scripts). *)
Theorem rescan_output (lf sf : option pystr) (lines : list pystr) :
  let outs := output_lines (Root.scan lf sf lines) in
  let again := List.map (fun l => l ++ [NL]) outs in
  Root.scan lf sf again
  = {| total_valid_scanned := List.length outs;
       lines_written := List.length outs;
       output_lines := outs |}
  /\ Day2.scan lf sf again = Root.scan lf sf again.
Proof.
  intros outs again. split; [|apply scan_agree].
  assert (HF : Forall (fun out => exists t lv s m,
                           emitted_record t lv s m
                           /\ Root.matches_filters lv s lf sf = true
                           /\ out = format_record t lv s m) outs).
  { apply Forall_forall. intros out Hin. unfold outs in Hin.
    destruct (Root_scan_spec lf sf lines) as (_ & _ & E).
    rewrite E in Hin. apply in_flat_map in Hin as (line & _ & Hin).
    apply kept_line_inv in Hin as (t & lv & s & m & Hv & Hm & ->).
    exists t, lv, s, m. split; [|auto].
    exact (valid_record_emitted line t lv s m Hv). }
  destruct (rescan_kept lf sf outs HF) as [E1 E2].
  destruct (Root_scan_spec lf sf again) as (H1 & H2 & H3).
  unfold again in *. rewrite E1 in H2, H3. rewrite E2, length_map in H1.
  destruct (Root.scan lf sf (List.map (fun l => l ++ [NL]) outs))
    as [tot wr ol]. simpl in *. subst. reflexivity.
Qed.

Lemma fields_chars (c : char) (x f : pystr) :
  In f (fields x) -> In c f -> In c x.
Proof.
  unfold fields. rewrite in_map_iff. intros (seg & <- & Hseg) Hc.
  apply In_strip in Hc. exact (In_split BAR c x seg Hseg Hc).
Qed.

Lemma file_line_strip (line : pystr) : file_line line -> ~ In NL (strip line).
Proof.
  intros (body & Hb & [-> | ->]) H.
  - exact (Hb (In_strip NL body H)).
  - rewrite strip_app_space in H by reflexivity.
    exact (Hb (In_strip NL body H)).
Qed.

Lemma kept_line_no_NL (lf sf : option pystr) (line out : pystr) :
  file_line line -> In out (kept_line lf sf line) -> ~ In NL out.
Proof.
  intros Hfl Hin. pose proof (file_line_strip line Hfl) as Hno.
  apply kept_line_inv in Hin as (t & lv & s & m & Hv & _ & ->).
  pose proof (valid_record_emitted line t lv s m Hv) as (_ & Hl & _ & _).
  unfold valid_record in Hv.
  destruct (four _) as [[[[t0 l0] s0] m0]|] eqn:E; [|discriminate].
  destruct (mem (upper l0) ALLOWED_LEVELS); [|discriminate].
  injection Hv as <- _ <- <-. apply four_Some in E.
  fold (fields (strip line)) in E.
  assert (Hf : forall f, In f [t0; l0; s0; m0] -> ~ In NL f).
  { intros f Hf Hc. rewrite <- E in Hf.
    exact (Hno (fields_chars NL (strip line) f Hf Hc)). }
  assert (Hlv : ~ In NL lv).
  { destruct Hl as [<-|[<-|[<-|[]]]]; vm_compute; intuition discriminate. }
  assert (Hsep : ~ In NL (py " | "))
    by (vm_compute; intuition discriminate).
  unfold format_record. intros H.
  repeat (apply in_app_or in H as [H|H]; [tauto || (revert H; apply Hf; simpl; tauto)|]).
  revert H. apply Hf. simpl. tauto.
Qed.

Lemma count_terminated_lines (ls : list pystr) :
  Forall (fun l => ~ In NL l) ls ->
  count_char NL (terminated_lines ls) = List.length ls.
Proof.
  induction 1 as [|l ls Hl _ IH]; [reflexivity|].
  change (terminated_lines (l :: ls)) with ((l ++ [NL]) ++ terminated_lines ls).
  unfold count_char in *. rewrite !count_occ_app.
  transitivity (0 + 1 + List.length ls); [|reflexivity].
  apply (f_equal2 Nat.add); [|exact IH].
  apply (f_equal2 Nat.add); [|reflexivity].
  exact (proj1 (count_occ_not_In N.eq_dec l NL) Hl).
Qed.

(** X11.  For a file read line by line (no line break inside a line), the
    number of line breaks in the content written to the output file is
    the written counter: the file has exactly as many lines as the
    summary reports (both scripts). *)
Theorem written_file_line_count (lf sf : option pystr) (lines : list pystr) :
  Forall file_line lines ->
  count_char NL (file_content (output_lines (Root.scan lf sf lines)))
  = lines_written (Root.scan lf sf lines)
  /\ count_char NL (file_content (output_lines (Day2.scan lf sf lines)))
     = lines_written (Day2.scan lf sf lines).
Proof.
  intros HF. rewrite scan_agree.
  destruct (Root_scan_spec lf sf lines) as (_ & -> & ->).
  rewrite file_content_terminated, count_terminated_lines; [split; reflexivity|].
  apply Forall_forall. intros out Hin.
  apply in_flat_map in Hin as (line & Hline & Hin).
  apply (kept_line_no_NL lf sf line out); [|exact Hin].
  exact (proj1 (Forall_forall _ _) HF line Hline).
Qed.

Lemma written_file_line_count_witness :
  count_char NL (file_content (output_lines (Root.scan None None scenario_A)))
  = lines_written (Root.scan None None scenario_A).
Proof.
  apply (written_file_line_count None None scenario_A).
  constructor; [|constructor].
  exists (py "2024-01-01T00:00:00 | info | auth | login ok").
  split; [vm_compute; intuition discriminate | right; reflexivity].
Defined.

(* ===================================================================== *)
(** ** Further properties of the drivers                                  *)
(* ===================================================================== *)

Lemma kept_line_unknown_level (lf : pystr) (sf : option pystr) (line : pystr) :
  ~ In lf ALLOWED_LEVELS -> kept_line (Some lf) sf line = [].
Proof.
  intros Hlf. destruct (kept_line (Some lf) sf line) as [|out rest] eqn:E;
    [reflexivity|].
  assert (Hin : In out (kept_line (Some lf) sf line))
    by (rewrite E; left; reflexivity).
  apply kept_line_inv in Hin as (t & lv & s & m & Hv & Hm & _).
  pose proof (valid_record_emitted line t lv s m Hv) as (_ & Hl & _ & _).
  apply (matches_filters_allowed lv s (Some lf) sf Hl) in Hm as [[H|H] _];
    [discriminate H | injection H as ->; elim (Hlf Hl)].
Qed.

Lemma flat_map_unknown_level (lf : pystr) (sf : option pystr)
    (lines : list pystr) :
  ~ In lf ALLOWED_LEVELS -> flat_map (kept_line (Some lf) sf) lines = [].
Proof.
  intros Hno. induction lines as [|line ls IH]; [reflexivity|]. simpl.
  rewrite (kept_line_unknown_level lf sf line Hno). exact IH.
Qed.

(** X7.  [src/log_tool.py] does not check [--level]: with a level filter
    that is not INFO, WARN or ERROR (after upper-casing) the run still
    scans and counts the valid lines, keeps none of them, writes an empty
    output file and reports [Lines written: 0]. *)
Theorem Root_unknown_level_filter
    (a : args) (w : world) (lines : list pystr) (lf : pystr) :
  level_filter_of a = Some lf -> ~ In lf ALLOWED_LEVELS ->
  logs w = Some lines ->
  mkdir_ok w (path_parent (mkPath (arg_out a))) = true ->
  write_ok w (mkPath (arg_out a)) = true ->
  Root.main a w
  = {| effects :=
         [Mkdir (path_parent (mkPath (arg_out a)));
          WriteText (mkPath (arg_out a)) [];
          Print (py "Valid lines scanned: "
                 ++ str_of_nat (List.length (filter is_valid_line lines)));
          Print (py "Lines written: 0");
          Print (py "Output file: " ++ path_str (mkPath (arg_out a)))];
       exit := Returned |}.
Proof.
  intros Hlf Hno Hlogs Hmk Hwr. unfold Root.main.
  fold (level_filter_of a). fold (service_filter_of a).
  rewrite Hlogs, Hmk, Hwr, Hlf. cbn [negb].
  destruct (Root_scan_spec (Some lf) (service_filter_of a) lines)
    as (-> & -> & ->).
  rewrite (flat_map_unknown_level lf (service_filter_of a) lines Hno).
  reflexivity.
Qed.

Lemma Root_unknown_level_filter_witness :
  Root.main {| arg_level := Some (py "verb"); arg_service := None;
               arg_out := DEFAULT_OUT |}
            (writable_world (Some scenario_A))
  = {| effects :=
         [Mkdir (mkPath []);
          WriteText (mkPath (py "filtered_logs.txt")) [];
          Print (py "Valid lines scanned: 1");
          Print (py "Lines written: 0");
          Print (py "Output file: filtered_logs.txt")];
       exit := Returned |}.
Proof.
  apply (Root_unknown_level_filter
           {| arg_level := Some (py "verb"); arg_service := None;
              arg_out := DEFAULT_OUT |}
           (writable_world (Some scenario_A)) scenario_A (py "VERB")
           eq_refl).
  - vm_compute. intuition discriminate.
  - reflexivity.
  - reflexivity.
  - reflexivity.
Defined.

(** X9.  [src/day 2 task/log_tool.py] rejects an unrecognised [--level]
    before looking at anything else: whatever the file system (input
    missing or not, output writable or not) the run prints the one error
    line quoting the option as given and returns, without writing. *)
Theorem Day2_rejected_level (a : args) :
  level_accepted a = false ->
  exists given,
    arg_level a = Some given
    /\ forall w,
        Day2.main a w
        = {| effects :=
               [Print (py "ERROR: --level must be one of INFO, WARN, ERROR (got: "
                       ++ given ++ py ")")];
             exit := Returned |}.
Proof.
  unfold level_accepted, level_filter_of, Day2.main.
  destruct (arg_level a) as [given|]; [|discriminate].
  destruct (nonempty given); [|discriminate].
  intros H. exists given. split; [reflexivity|]. intros w.
  rewrite H. reflexivity.
Qed.

Lemma Day2_rejected_level_witness :
  exists given,
    Some (py "verb") = Some given
    /\ forall w,
        Day2.main {| arg_level := Some (py "verb"); arg_service := None;
                     arg_out := DEFAULT_OUT |} w
        = {| effects :=
               [Print (py "ERROR: --level must be one of INFO, WARN, ERROR (got: "
                       ++ given ++ py ")")];
             exit := Returned |}.
Proof.
  exact (Day2_rejected_level
           {| arg_level := Some (py "verb"); arg_service := None;
              arg_out := DEFAULT_OUT |} eq_refl).
Defined.







(** X13.  [--level] is case-insensitive: two non-empty spellings with the
    same upper-case form give the same run of [src/log_tool.py], and the
    same run of [src/day 2 task/log_tool.py] when that form is a
    recognised level. *)
Theorem level_option_case_insensitive
    (l1 l2 : pystr) (sv : option pystr) (out : pystr) (w : world) :
  nonempty l1 = true -> nonempty l2 = true -> upper l1 = upper l2 ->
  Root.main {| arg_level := Some l1; arg_service := sv; arg_out := out |} w
  = Root.main {| arg_level := Some l2; arg_service := sv; arg_out := out |} w
  /\ (In (upper l1) ALLOWED_LEVELS ->
      Day2.main {| arg_level := Some l1; arg_service := sv; arg_out := out |} w
      = Day2.main {| arg_level := Some l2; arg_service := sv; arg_out := out |} w).
Proof.
  intros H1 H2 E. unfold Root.main, Day2.main. cbn [arg_level arg_service arg_out].
  rewrite H1, H2, E. split; [reflexivity|].
  intros Hin. rewrite <- E in Hin. apply mem_In in Hin.
  rewrite E in Hin. rewrite Hin. reflexivity.
Qed.

Lemma level_option_case_insensitive_witness :
  Root.main {| arg_level := Some (py "error"); arg_service := None;
               arg_out := DEFAULT_OUT |} (writable_world (Some scenario_A))
  = Root.main {| arg_level := Some (py "ERROR"); arg_service := None;
                 arg_out := DEFAULT_OUT |} (writable_world (Some scenario_A)).
Proof.
  exact (proj1 (level_option_case_insensitive (py "error") (py "ERROR") None
                  DEFAULT_OUT (writable_world (Some scenario_A))
                  eq_refl eq_refl eq_refl)).
Defined.
